(** * Flight management: the document model, the flight repository
      (FlightDataBaseConnector.py) and the seat booking transition.

    The repository keeps one collection of [Flight] documents in a document
    store.  [FlightDBC] offers three operations on it: [add_flight],
    [get_flights] and [book_flight].  They are embedded here as functions
    that take the collection and return the new one next to their result. *)

From Stdlib Require Import ZArith Lia.
From stdpp Require Import base option list strings pretty gmap fin_maps.

Local Open Scope Z_scope.

(** ** Data model *)

(** [datetime.datetime]: a point in time, counted in the unit the store
    keeps.  Only the order of two points is ever used. *)
Definition datetime := Z.

(** A [datetime.datetime] as Python code builds it, before the store has
    seen it: counted in microseconds, a thousand to the unit the store
    keeps.  The times handed to [add_flight] are of this kind; every time
    in a stored document, and every time compared with one, is a
    [datetime]. *)
Definition microseconds := Z.

(** [PydanticObjectId]: the identity of a stored document. *)
Definition PydanticObjectId := nat.

(** [class BookingStatus(StrEnum)]. *)
Inductive BookingStatus := AVAILABLE | BOOKED.

Global Instance BookingStatus_eq_dec : EqDecision BookingStatus.
Proof. solve_decision. Defined.

(** [class Booking(BaseModel)].  The three passenger fields hold [None]
    while the seat is free. *)
Record Booking := mkBooking {
  seat_number : string;
  booking_status : BookingStatus;
  passenger_name : option string;
  passenger_id : option string;
  booking_time : option datetime
}.

Global Instance Booking_eq_dec : EqDecision Booking.
Proof. solve_decision. Defined.

(** [class Flight(Document)].  [_id] is the [id] attribute every document
    has: [None] until the document is first saved. *)
Record Flight := mkFlight {
  _id : option PydanticObjectId;
  flight_number : string;
  departure_time : datetime;
  origin : string;
  destination : string;
  estimated_arrival_time : datetime;
  seats_total : Z;
  seats_available : Z;
  bookings : list Booking
}.

Global Instance Flight_eq_dec : EqDecision Flight.
Proof. solve_decision. Defined.

(** Attribute assignments [flight.x = v] used by the code. *)
Definition set_id (v : option PydanticObjectId) (f : Flight) : Flight :=
  mkFlight v (flight_number f) (departure_time f) (origin f) (destination f)
           (estimated_arrival_time f) (seats_total f) (seats_available f)
           (bookings f).

Definition set_bookings (v : list Booking) (f : Flight) : Flight :=
  mkFlight (_id f) (flight_number f) (departure_time f) (origin f)
           (destination f) (estimated_arrival_time f) (seats_total f)
           (seats_available f) v.

Definition set_seats_available (v : Z) (f : Flight) : Flight :=
  mkFlight (_id f) (flight_number f) (departure_time f) (origin f)
           (destination f) (estimated_arrival_time f) (seats_total f) v
           (bookings f).

(** Values as they sit in a model's [values] dict and in a stored
    document. *)
Inductive Value :=
  | VId (i : PydanticObjectId)
  | VStr (s : string)
  | VDate (t : datetime)
  | VInt (n : Z)
  | VBookings (l : list Booking).

Global Instance Value_eq_dec : EqDecision Value.
Proof. solve_decision. Defined.

(** What the code can raise: the model's validation error, and the
    store's refusal of an integer that does not fit its eight bytes. *)
Inductive Exception := ValidationError | OverflowError.

(** ** Constructing a flight *)

(** [Flight.validate_arrival_time(cls, v, values)]: [values] holds the
    fields declared before [estimated_arrival_time]. *)
Definition validate_arrival_time (v : datetime) (values : gmap string Value)
  : Exception + datetime :=
  match values !! "departure_time" with
  | Some (VDate d) => if bool_decide (v ≤ d) then inl ValidationError else inr v
  | _ => inr v
  end.

(** [Flight(flight_number=..., ..., bookings=...)]: the fields are checked
    in the order of their declaration, the validator runs on
    [estimated_arrival_time]. *)
Definition Flight_init (flight_number : string) (departure_time : datetime)
    (origin destination : string) (estimated_arrival_time : datetime)
    (seats_total seats_available : Z) (bookings : list Booking)
  : Exception + Flight :=
  let values : gmap string Value :=
    <["destination" := VStr destination]>
      (<["origin" := VStr origin]>
        (<["departure_time" := VDate departure_time]>
          (<["flight_number" := VStr flight_number]> ∅))) in
  match validate_arrival_time estimated_arrival_time values with
  | inl e => inl e
  | inr v =>
      inr (mkFlight None flight_number departure_time origin destination v
                    seats_total seats_available bookings)
  end.

(** [range(n)]. *)
Definition range (n : Z) : list Z := seqZ 0 n.

(** [str(n)] for an integer: the model turns the integer seat label into
    the string field [seat_number]. *)
Definition str (n : Z) : string := pretty n.

(** The body of the seat loop of [add_flight]: a free seat, labelled
    [i + 1], appended to [flight.bookings]. *)
Definition append_seat (flight : Flight) (i : Z) : Flight :=
  let seat_number := i + 1 in
  let booking := mkBooking (str seat_number) AVAILABLE None None None in
  set_bookings (bookings flight ++ [booking]) flight.

(** ** The document store *)

(** The collection is the list of its documents, in the order the store
    keeps them. *)

Definition has_id (i : PydanticObjectId) (f : Flight) : bool :=
  bool_decide (_id f = Some i).

(** The identity the store gives a new document: one that no stored
    document has. *)
Definition fresh_id (db : list Flight) : PydanticObjectId :=
  S (max_list (omap _id db)).

(** Replace the first document that has identity [i]. *)
Fixpoint replace_one (i : PydanticObjectId) (flight : Flight)
    (db : list Flight) : list Flight :=
  match db with
  | [] => []
  | f :: db' =>
      if has_id i f then flight :: db' else f :: replace_one i flight db'
  end.

(** The store keeps a time in whole milliseconds and drops the rest. *)
Definition to_millis (t : microseconds) : datetime := t `div` 1000.

(** The integers the store can hold: eight bytes, signed. *)
Definition int64 (n : Z) : Prop := - 2 ^ 63 ≤ n < 2 ^ 63.

Global Instance int64_dec n : Decision (int64 n).
Proof. unfold int64. apply _. Defined.

(** A new document as the store writes it: under the identity [i], with
    its two times cut to the store's unit. *)
Definition written (i : PydanticObjectId) (f : Flight) : Flight :=
  mkFlight (Some i) (flight_number f) (to_millis (departure_time f))
           (origin f) (destination f)
           (to_millis (estimated_arrival_time f)) (seats_total f)
           (seats_available f) (bookings f).

(** [await flight.save()].

    A document without identity is new.  The store refuses it, and
    nothing is written, when one of its integers does not fit eight
    bytes.  Otherwise it is written under a new identity with its times
    cut to milliseconds, and then the document that was written is read
    back into the model: the validator runs again, on the times as
    stored, and what it raises comes out of [save] with the document
    already in the collection.

    A document with an identity was fetched from the collection
    ([book_flight]): its times are the stored ones, on which the
    validator has passed, and it replaces the stored document.  Its
    counter, moved by one seat, is taken to fit the store's integers. *)
Definition save (flight : Flight) (db : list Flight)
  : (Exception + Flight) * list Flight :=
  match _id flight with
  | None =>
      if bool_decide (int64 (seats_total flight)
                      ∧ int64 (seats_available flight))
      then
        let flight := written (fresh_id db) flight in
        let db := db ++ [flight] in
        match Flight_init (flight_number flight) (departure_time flight)
                          (origin flight) (destination flight)
                          (estimated_arrival_time flight)
                          (seats_total flight) (seats_available flight)
                          (bookings flight) with
        | inl e => (inl e, db)
        | inr _ => (inr flight, db)
        end
      else (inl OverflowError, db)
  | Some i =>
      if existsb (has_id i) db then (inr flight, replace_one i flight db)
      else (inr flight, db ++ [flight])
  end.

(** [await Flight.get(flight_id)]: the stored document of that identity,
    as it was saved.  Reading a document runs the validator once more; it
    passes on every document whose arrival is after its departure, and
    the model hands out the document without asking. *)
Definition get (flight_id : PydanticObjectId) (db : list Flight)
  : option Flight :=
  List.find (has_id flight_id) db.

(** ** [FlightDBC.add_flight] *)

(** The call returns [flight.id], or raises what the constructor or
    [save] raises; in either case the collection it leaves comes with the
    result.  The two times are Python values, as the caller built them.
    The line printed after saving is not kept. *)
Definition add_flight (db : list Flight)
    (flight_number : string) (departure_time : microseconds)
    (origin destination : string) (estimated_arrival_time : microseconds)
    (flight_size : Z)
  : (Exception + option PydanticObjectId) * list Flight :=
  match Flight_init flight_number departure_time origin destination
                    estimated_arrival_time flight_size flight_size [] with
  | inl e => (inl e, db)
  | inr flight =>
      let flight := foldl append_seat flight (range flight_size) in
      match save flight db with
      | (inl e, db) => (inl e, db)
      | (inr flight, db) => (inr (_id flight), db)
      end
  end.

(** ** [FlightDBC.get_flights] *)

(** The right-hand side of one entry of the query dict: a plain value asks
    for equality, [{"$gte": v}] and [{"$lt": v}] for a comparison. *)
Inductive Cond :=
  | CEq (v : Value)
  | CGte (v : Value)
  | CLt (v : Value).

(** [if arg: query[key] = arg] for a string argument: [None] and the
    empty string are both false. *)
Definition str_filter (key : string) (arg : option string)
    (query : gmap string Cond) : gmap string Cond :=
  match arg with
  | Some s => if bool_decide (s = "") then query else <[key := CEq (VStr s)]> query
  | None => query
  end.

(** [if arg: query[key] = {op: arg}] for a time argument: every
    [datetime] is true, only [None] is false.  The bound is the time as
    the store receives it, in its own unit. *)
Definition time_filter (key : string) (op : Value → Cond)
    (arg : option datetime) (query : gmap string Cond) : gmap string Cond :=
  match arg with
  | Some t => <[key := op (VDate t)]> query
  | None => query
  end.

(** The query dict that [get_flights] builds, statement by statement. *)
Definition get_query (flight_number origin destination : option string)
    (start_time end_time : option datetime) : gmap string Cond :=
  let query : gmap string Cond := ∅ in
  let query := str_filter "flight_number" flight_number query in
  let query := str_filter "origin" origin query in
  let query := str_filter "destination" destination query in
  let query := time_filter "departure_time" CGte start_time query in
  let query := time_filter "departure_time__lt" CLt end_time query in
  query.

(** The stored form of a flight: one key per declared field. *)
Definition document (f : Flight) : gmap string Value :=
  let doc : gmap string Value :=
    <["bookings" := VBookings (bookings f)]>
      (<["seats_available" := VInt (seats_available f)]>
        (<["seats_total" := VInt (seats_total f)]>
          (<["estimated_arrival_time" := VDate (estimated_arrival_time f)]>
            (<["destination" := VStr (destination f)]>
              (<["origin" := VStr (origin f)]>
                (<["departure_time" := VDate (departure_time f)]>
                  (<["flight_number" := VStr (flight_number f)]> ∅))))))) in
  match _id f with
  | Some i => <["_id" := VId i]> doc
  | None => doc
  end.

(** How the store decides one entry of a query against the field of a
    document: equality needs the field to hold that value, a comparison
    needs the field to be there and to hold a time on the right side of
    the bound.  A document without the field satisfies none of them. *)
Definition holds (c : Cond) (field : option Value) : Prop :=
  match c, field with
  | CEq v, Some w => w = v
  | CGte (VDate t), Some (VDate d) => t ≤ d
  | CLt (VDate t), Some (VDate d) => d < t
  | _, _ => False
  end.

Global Instance holds_dec c field : Decision (holds c field).
Proof.
  destruct c as [v|v|v], field as [w|]; simpl; try apply _;
    destruct v; try apply _; destruct w; apply _.
Defined.

(** A document matches a query when it satisfies every entry. *)
Definition matches (query : gmap string Cond) (f : Flight) : Prop :=
  map_Forall (λ key c, holds c (document f !! key)) query.

Global Instance matches_dec query f : Decision (matches query f).
Proof. unfold matches. apply _. Defined.

(** [await Flight.find(query).to_list()]. *)
Definition find (query : gmap string Cond) (db : list Flight) : list Flight :=
  filter (matches query) db.

Definition get_flights (db : list Flight)
    (flight_number origin destination : option string)
    (start_time end_time : option datetime) : list Flight :=
  let query :=
    get_query flight_number origin destination start_time end_time in
  let flights := find query db in
  flights.

(** ** [FlightDBC.book_flight] *)

(** [book_flight] returns nothing; each of its paths prints one line
    before it returns, and that line is the outcome here.
    - [MsgNoFlight], line 131: there is no such flight;
    - [MsgSeatState seat s], line 138: the seat already has status [s]
      (already booked, or not booked);
    - [MsgIdentityMismatch], line 143: name or id differ from the stored
      ones, the cancellation is refused;
    - [MsgBookingDone seat s], line 153: the seat was booked, or its
      booking cancelled;
    - [MsgSeatNumberError], line 156: no record has that seat number. *)
Inductive Message :=
  | MsgNoFlight
  | MsgSeatState (seat : string) (s : BookingStatus)
  | MsgIdentityMismatch
  | MsgBookingDone (seat : string) (s : BookingStatus)
  | MsgSeatNumberError.

Global Instance Message_eq_dec : EqDecision Message.
Proof. solve_decision. Defined.

(** [None if status == BookingStatus.AVAILABLE else v]. *)
Definition unless_available {A} (status : BookingStatus) (v : A) : option A :=
  match status with
  | AVAILABLE => None
  | BOOKED => Some v
  end.

(** The updated seat record of lines 146-149. *)
Definition update_booking (booking : Booking) (passenger_name passenger_id : string)
    (status : BookingStatus) (utcnow : datetime) : Booking :=
  mkBooking (seat_number booking) status
            (unless_available status passenger_name)
            (unless_available status passenger_id)
            (unless_available status utcnow).

(** Lines 137-154: what [book_flight] does with the record [booking]
    whose seat number is the requested one.  [flight.bookings] is
    [seen ++ booking :: rest]; [booking] is a reference into that list, so
    writing its attributes changes the flight in place.  [utcnow] is the
    clock reading of line 149. *)
Definition book_seat (db : list Flight) (flight : Flight)
    (seen : list Booking) (booking : Booking) (rest : list Booking)
    (seat : string) (passenger_name' passenger_id' : string)
    (status : BookingStatus) (utcnow : datetime) : Message * list Flight :=
  if bool_decide (booking_status booking = status) then
    (MsgSeatState seat status, db)
  else if bool_decide (status = AVAILABLE)
          && (bool_decide (passenger_id booking ≠ Some passenger_id')
              || bool_decide (passenger_name booking ≠ Some passenger_name'))
  then (MsgIdentityMismatch, db)
  else
    let booking :=
      update_booking booking passenger_name' passenger_id' status utcnow in
    let flight := set_bookings (seen ++ booking :: rest) flight in
    let flight :=
      set_seats_available
        (seats_available flight
         + (if bool_decide (status = BOOKED) then -1 else 1)) flight in
    let '(_, db) := save flight db in
    (MsgBookingDone seat status, db).

(** The loop [for booking in flight.bookings]: [seen] are the records
    already passed, [todo] those still ahead. *)
Fixpoint book_loop (db : list Flight) (flight : Flight)
    (seen todo : list Booking) (seat : string)
    (passenger_name' passenger_id' : string) (status : BookingStatus)
    (utcnow : datetime) : Message * list Flight :=
  match todo with
  | [] => (MsgSeatNumberError, db)
  | booking :: rest =>
      if bool_decide (seat_number booking = seat) then
        book_seat db flight seen booking rest seat
                  passenger_name' passenger_id' status utcnow
      else
        book_loop db flight (seen ++ [booking]) rest seat
                  passenger_name' passenger_id' status utcnow
  end.

Definition book_flight (db : list Flight) (flight_id : PydanticObjectId)
    (seat : string) (passenger_name' passenger_id' : string)
    (status : BookingStatus) (utcnow : datetime) : Message * list Flight :=
  match get flight_id db with
  | None => (MsgNoFlight, db)
  | Some flight =>
      book_loop db flight [] (bookings flight) seat
                passenger_name' passenger_id' status utcnow
  end.


(** ** Runs of the repository *)

(** One call of a writing operation with its arguments. *)
Inductive Op :=
  | AddFlight (flight_number : string) (departure_time : microseconds)
              (origin destination : string)
              (estimated_arrival_time : microseconds) (flight_size : Z)
  | BookFlight (flight_id : PydanticObjectId) (seat : string)
               (passenger_name' passenger_id' : string)
               (status : BookingStatus) (utcnow : datetime).

Definition run_op (db : list Flight) (op : Op) : list Flight :=
  match op with
  | AddFlight n dep o d arr size => (add_flight db n dep o d arr size).2
  | BookFlight i seat pn pid status now =>
      (book_flight db i seat pn pid status now).2
  end.

(** The collection after a sequence of calls, from the collection [db]. *)
Definition run (ops : list Op) (db : list Flight) : list Flight :=
  foldl run_op db ops.

(** The number of free seats that the seat records show. *)
Definition count_available (l : list Booking) : nat :=
  length (filter (λ b, booking_status b = AVAILABLE) l).

(** The counter agrees with the seat records and stays in its range. *)
Definition in_sync (f : Flight) : Prop :=
  seats_available f = Z.of_nat (count_available (bookings f))
  ∧ 0 ≤ seats_available f ≤ seats_total f.

(** A seat record as [add_flight] leaves it. *)
Definition is_free (b : Booking) : Prop :=
  booking_status b = AVAILABLE ∧ passenger_name b = None
  ∧ passenger_id b = None ∧ booking_time b = None.

(** Seat numbers are not repeated within the flight. *)
Definition seats_unique (f : Flight) : Prop :=
  NoDup (seat_number <$> bookings f).

Global Instance seats_unique_dec f : Decision (seats_unique f).
Proof. unfold seats_unique. apply _. Defined.

(** ** Derived notions used in the statements *)

(** The free seat labelled [i + 1]. *)
Definition free_seat (i : Z) : Booking :=
  mkBooking (str (i + 1)) AVAILABLE None None None.

(** What [add_flight] stores for a valid input. *)
Definition new_flight (db : list Flight) (n : string) (dep : datetime)
    (o d : string) (arr : datetime) (size : Z) : Flight :=
  mkFlight (Some (fresh_id db)) n dep o d arr size size
           (free_seat <$> range size).

(** The flight as [book_flight] saves it after changing the record at
    position [i]. *)
Definition booked_flight (flight : Flight) (i : nat) (booking : Booking)
    (pn pid : string) (status : BookingStatus) (now : datetime) : Flight :=
  set_seats_available
    (seats_available flight + (if bool_decide (status = BOOKED) then -1 else 1))
    (set_bookings
       (<[i := update_booking booking pn pid status now]> (bookings flight))
       flight).

(** A call that asks for no negative number of seats. *)
Definition nonneg_size (op : Op) : Prop :=
  match op with
  | AddFlight _ _ _ _ _ size => 0 ≤ size
  | BookFlight _ _ _ _ _ _ => True
  end.

(** The invariant behind [in_sync]: the counter is the number of free
    records, and there are [seats_total] records. *)
Definition counted (f : Flight) : Prop :=
  seats_available f = Z.of_nat (count_available (bookings f))
  ∧ seats_total f = Z.of_nat (length (bookings f)).

(** ** Worked inputs *)

(** The flight that [add_flight] stores first for two seats. *)
Definition flight_two_seats : Flight :=
  mkFlight (Some 1%nat) "AB123" 10 "PEK" "SHA" 20 2 2
    [mkBooking "1" AVAILABLE None None None;
     mkBooking "2" AVAILABLE None None None].

(** The same flight once seat 1 is booked for Alice at time 15. *)
Definition flight_alice : Flight :=
  mkFlight (Some 1%nat) "AB123" 10 "PEK" "SHA" 20 2 1
    [mkBooking "1" BOOKED (Some "Alice") (Some "ID1") (Some 15);
     mkBooking "2" AVAILABLE None None None].

(** A stored flight without a flight number. *)
Definition flight_unnumbered : Flight :=
  mkFlight (Some 2%nat) "" 10 "PEK" "SHA" 20 0 0 [].

(** A run: a flight with two seats is created, seat 1 is booked for
    Alice, a cancellation under Bob's name is tried, then one under
    Alice's. *)
Definition example_ops : list Op :=
  [AddFlight "AB123" 10000 "PEK" "SHA" 20000 2;
   BookFlight 1%nat "1" "Alice" "ID1" BOOKED 15;
   BookFlight 1%nat "1" "Bob" "ID2" AVAILABLE 16;
   BookFlight 1%nat "1" "Alice" "ID1" AVAILABLE 17].

(** ** Further notions used in the statements *)

(** What a flight is apart from its counter and the state of its seats. *)
Definition itinerary (f : Flight)
  : option PydanticObjectId * string * datetime * string * string
    * datetime * Z :=
  (_id f, flight_number f, departure_time f, origin f, destination f,
   estimated_arrival_time f, seats_total f).

(** The seat labels of a flight, in the order of its records. *)
Definition seat_numbers (f : Flight) : list string :=
  seat_number <$> bookings f.

(** The number of taken seats that the seat records show. *)
Definition count_booked (l : list Booking) : nat :=
  length (filter (λ b, booking_status b = BOOKED) l).

(** A record whose passenger fields fit its status: all three absent on a
    free seat, all three present on a taken one. *)
Definition filled (b : Booking) : Prop :=
  match booking_status b with
  | AVAILABLE =>
      passenger_name b = None ∧ passenger_id b = None ∧ booking_time b = None
  | BOOKED =>
      is_Some (passenger_name b) ∧ is_Some (passenger_id b)
      ∧ is_Some (booking_time b)
  end.

(** A string argument of [get_flights] lets the value [v] through. *)
Definition wanted (arg : option string) (v : string) : Prop :=
  match arg with
  | Some s => s = "" ∨ v = s
  | None => True
  end.

Global Instance wanted_dec arg v : Decision (wanted arg v).
Proof. destruct arg; simpl; apply _. Defined.

(** The [start_time] argument of [get_flights] lets the time [t]
    through. *)
Definition not_before (arg : option datetime) (t : datetime) : Prop :=
  match arg with
  | Some s => s ≤ t
  | None => True
  end.

Global Instance not_before_dec arg t : Decision (not_before arg t).
Proof. destruct arg; simpl; apply _. Defined.

(** The flights that the first four arguments of [get_flights] ask for. *)
Definition selected (n o d : option string) (start : option datetime)
    (f : Flight) : Prop :=
  wanted n (flight_number f) ∧ wanted o (origin f)
  ∧ wanted d (destination f) ∧ not_before start (departure_time f).

Global Instance selected_dec n o d start f : Decision (selected n o d start f).
Proof. unfold selected. apply _. Defined.

(** The flight that [book_flight] saves when it changes the record
    [booking], found between the records [pre] and [post]. *)
Definition rebooked (flight : Flight) (pre : list Booking) (booking : Booking)
    (post : list Booking) (pn pid : string) (status : BookingStatus)
    (now : datetime) : Flight :=
  set_seats_available
    (seats_available flight + (if bool_decide (status = BOOKED) then -1 else 1))
    (set_bookings (pre ++ update_booking booking pn pid status now :: post)
                  flight).

(** Every stored flight has an identity, and no two have the same. *)
Definition ids_distinct (db : list Flight) : Prop :=
  NoDup (_id <$> db) ∧ None ∉ _id <$> db.

(** ** The console (FlightManagementSystem.py) *)

(** [class FlightManagementSystem]: the menu and its actions.  They read
    their arguments line by line from the terminal and call [FlightDBC].
    What they print is not kept; [display_flights] and [show_all_flights]
    only print. *)
Module FlightManagementSystem.

(** What can end an action early: the exceptions of the library calls it
    makes, and what [FlightDBC] raises. *)
Inductive Error :=
  | ValueError
  | IndexError
  | AttributeError
  | EOFError
  | Raised (e : Exception).

(** The state an action works on: the lines still to be read from the
    terminal, and the collection. *)
Record Console := mkConsole {
  stdin : list string;
  stored : list Flight
}.

(** An action: it ends with a result or an exception, in a new state. *)
Definition M (A : Type) : Type := Console → (Error + A) * Console.

Definition ret {A} (a : A) : M A := λ w, (inr a, w).

Definition raise {A} (e : Error) : M A := λ w, (inl e, w).

Definition bind {A B} (m : M A) (k : A → M B) : M B :=
  λ w, match m w with
       | (inl e, w') => (inl e, w')
       | (inr a, w') => k a w'
       end.

Notation "x <- m ;; k" := (bind m (λ x, k))
  (at level 100, m at next level, right associativity).

(** [input(prompt)]: the next line typed, [EOFError] when there is
    none. *)
Definition input : M string :=
  λ w, match stdin w with
       | [] => (inl EOFError, w)
       | line :: rest => (inr line, mkConsole rest (stored w))
       end.

(** The calls into [self.DBC] and [Flight], on the collection of the
    state. *)
Definition DBC_add_flight (flight_number : string)
    (departure_time : microseconds) (origin destination : string)
    (estimated_arrival_time : microseconds)
    (flight_size : Z) : M (option PydanticObjectId) :=
  λ w, match add_flight (stored w) flight_number departure_time origin
                        destination estimated_arrival_time flight_size with
       | (inl e, db) => (inl (Raised e), mkConsole (stdin w) db)
       | (inr i, db) => (inr i, mkConsole (stdin w) db)
       end.

Definition DBC_get_flights (flight_number origin destination : option string)
    (start_time end_time : option datetime) : M (list Flight) :=
  λ w, (inr (get_flights (stored w) flight_number origin destination
                         start_time end_time), w).

Definition DBC_book_flight (flight_id : PydanticObjectId) (seat : string)
    (passenger_name' passenger_id' : string) (status : BookingStatus)
    (utcnow : datetime) : M Message :=
  λ w, let '(msg, db) := book_flight (stored w) flight_id seat
                                     passenger_name' passenger_id' status
                                     utcnow in
       (inr msg, mkConsole (stdin w) db).

Definition Flight_get (flight_id : PydanticObjectId) : M (option Flight) :=
  λ w, (inr (get flight_id (stored w)), w).

(** [l[k]] on a list: a negative [k] counts from the end, an index
    outside the list raises. *)
Definition index {A} (l : list A) (k : Z) : Error + A :=
  let k' := if bool_decide (k < 0) then k + Z.of_nat (length l) else k in
  if bool_decide (k' < 0) then inl IndexError
  else match l !! Z.to_nat k' with
       | Some x => inr x
       | None => inl IndexError
       end.

Section actions.

(** The library calls whose results the actions only pass on:
    [s.strip()]; [datetime.datetime.strptime(s, "%Y-%m-%d %H:%M")] and
    [int(s)], with [None] for their [ValueError]; [re.sub(r'\D', '', s)];
    and the reading of the clock in [book_flight].  [strptime] gives a
    Python value, in microseconds; the clock is read as the store keeps
    it. *)
Variable strip : string → string.
Variable strptime : string → option microseconds.
Variable int : string → option Z.
Variable digits : string → string.
Variable utcnow : Console → datetime.

(** [add_flight], lines 26-58. *)
Definition add_flight : M (option PydanticObjectId) :=
  flight_number <- input ;;
  departure_time <- input ;;
  origin <- input ;;
  destination <- input ;;
  estimated_arrival_time <- input ;;
  flight_size <- input ;;
  match strptime departure_time with
  | None => ret None
  | Some departure_time =>
      match strptime estimated_arrival_time with
      | None => ret None
      | Some estimated_arrival_time =>
          if bool_decide (departure_time >= estimated_arrival_time)
          then ret None
          else
            match int flight_size with
            | None => ret None
            | Some flight_size =>
                DBC_add_flight flight_number departure_time origin
                               destination estimated_arrival_time flight_size
            end
      end
  end.

(** [display_flight], lines 90-112: it fetches the flight and prints it;
    reading the attributes of a flight that is not there raises. *)
Definition display_flight (flight_id : option PydanticObjectId) : M unit :=
  match flight_id with
  | None => ret tt
  | Some i =>
      flight <- Flight_get i ;;
      match flight with
      | None => raise AttributeError
      | Some _ => ret tt
      end
  end.

(** A time typed for [find_flights]: an empty line is no time. *)
Definition optional_time (s : string) : M (option microseconds) :=
  if bool_decide (s = "") then ret None
  else match strptime s with
       | None => raise ValueError
       | Some t => ret (Some t)
       end.

(** [find_flights], lines 114-138.  The two times go to [get_flights] as
    the store receives them, in its own unit. *)
Definition find_flights : M (option (list Flight)) :=
  flight_number <- input ;;
  start_time_str <- input ;;
  start_time <- optional_time (strip start_time_str) ;;
  end_time_str <- input ;;
  end_time <- optional_time (strip end_time_str) ;;
  origin <- input ;;
  destination <- input ;;
  flights <- DBC_get_flights (Some (strip flight_number))
                             (Some (strip origin)) (Some (strip destination))
                             (to_millis <$> start_time)
                             (to_millis <$> end_time) ;;
  if bool_decide (length flights = 0%nat) then ret None
  else ret (Some flights).

(** [select_flight], lines 140-152. *)
Definition select_flight (flights : option (list Flight))
  : M (option PydanticObjectId) :=
  match flights with
  | None => ret None
  | Some flights =>
      line <- input ;;
      match int (digits line) with
      | None => raise ValueError
      | Some number =>
          if bool_decide (number = 0) then ret None
          else if negb (bool_decide (1 ≤ number ≤ Z.of_nat (length flights)))
          then ret None
          else
            match index flights (number - 1) with
            | inl e => raise e
            | inr flight => ret (_id flight)
            end
      end
  end.

(** [book_flight], lines 154-165.  The result is the line that
    [FlightDBC.book_flight] printed, if it was called. *)
Definition book_flight (status : BookingStatus) : M (option Message) :=
  flights <- find_flights ;;
  flight_id <- select_flight flights ;;
  match flight_id with
  | None => ret None
  | Some i =>
      _ <- display_flight (Some i) ;;
      seat_number <- input ;;
      passenger_name <- input ;;
      passenger_id <- input ;;
      msg <- (λ w, DBC_book_flight i (strip seat_number)
                     (strip passenger_name) (strip passenger_id) status
                     (utcnow w) w) ;;
      _ <- display_flight (Some i) ;;
      ret (Some msg)
  end.

(** One round of the menu of [run], lines 185-198, for the number typed:
    [true] when the round ends the program. *)
Definition menu (choice : Z) : M bool :=
  if bool_decide (choice = 1) then _ <- add_flight ;; ret false
  else if bool_decide (choice = 2) then
    flights <- find_flights ;;
    flight_id <- select_flight flights ;;
    _ <- display_flight flight_id ;;
    ret false
  else if bool_decide (choice = 3) then _ <- book_flight BOOKED ;; ret false
  else if bool_decide (choice = 4) then
    _ <- book_flight AVAILABLE ;; ret false
  else if bool_decide (choice = 0) then ret true
  else ret false.

(** [run], lines 174-198: the loop [while True], cut off after [fuel]
    rounds ([None]). *)
Fixpoint run (fuel : nat) (w : Console) : option ((Error + unit) * Console) :=
  match fuel with
  | O => None
  | S fuel =>
      match input w with
      | (inl e, w) => Some (inl e, w)
      | (inr choice, w) =>
          match int (digits choice) with
          | None => Some (inl ValueError, w)
          | Some choice =>
              match menu choice w with
              | (inl e, w) => Some (inl e, w)
              | (inr true, w) => Some (inr tt, w)
              | (inr false, w) => run fuel w
              end
          end
      end
  end.

End actions.

End FlightManagementSystem.

(** Stand-ins for the library calls, for worked runs of the console:
    times and numbers are typed as decimal digits. *)
Definition sample_number (s : string) : option Z :=
  if bool_decide (s = "0") then Some 0
  else if bool_decide (s = "1") then Some 1
  else if bool_decide (s = "2") then Some 2
  else if bool_decide (s = "3") then Some 3
  else if bool_decide (s = "10") then Some 10
  else if bool_decide (s = "20") then Some 20
  else None.

Definition sample_clock (w : FlightManagementSystem.Console) : datetime := 15.

(** A stand-in for [strptime]: the number typed, in milliseconds. *)
Definition sample_time (s : string) : option microseconds :=
  Z.mul 1000 <$> sample_number s.

(** An action that only changes the collection through calls of
    [FlightDBC], and only takes lines off the terminal. *)
Definition tame {A} (m : FlightManagementSystem.M A) : Prop :=
  ∀ w,
    (∃ ops, FlightManagementSystem.stored (m w).2
            = run ops (FlightManagementSystem.stored w))
    ∧ (length (FlightManagementSystem.stdin (m w).2)
       ≤ length (FlightManagementSystem.stdin w))%nat.

(** A session at the console: a flight with two seats is added, then the
    exit choice is typed. *)
Definition sample_session : FlightManagementSystem.Console :=
  FlightManagementSystem.mkConsole
    ["1"; "AB123"; "10"; "PEK"; "SHA"; "20"; "2"; "0"] [].

(** The lines typed to book seat 1 of the first flight listed, with every
    search filter left empty. *)
Definition sample_booking : FlightManagementSystem.Console :=
  FlightManagementSystem.mkConsole
    [""; ""; ""; ""; ""; "1"; "1"; "Alice"; "ID1"] [flight_two_seats].

(** * Properties *)

(** ** The store *)

Lemma has_id_true i f : has_id i f = true ↔ _id f = Some i.
Proof. unfold has_id. apply bool_decide_eq_true. Qed.

Lemma get_Some_id i db f : get i db = Some f → _id f = Some i.
Proof.
  unfold get. intros H. apply find_some in H as [_ H].
  by apply has_id_true.
Qed.

Lemma get_Some_elem i db f : get i db = Some f → f ∈ db.
Proof.
  unfold get. intros H. apply find_some in H as [H _].
  by apply list_elem_of_In.
Qed.

Lemma get_existsb i db f : get i db = Some f → existsb (has_id i) db = true.
Proof.
  intros H. apply existsb_exists. exists f. split.
  - apply list_elem_of_In. by eapply get_Some_elem.
  - apply has_id_true. by eapply get_Some_id.
Qed.

Lemma get_replace_one i db f f' :
  get i db = Some f → _id f' = Some i → get i (replace_one i f' db) = Some f'.
Proof.
  unfold get. intros Hget Hid.
  induction db as [|g db IH]; simpl in *; [done|].
  destruct (has_id i g) eqn:Hg; simpl.
  - by rewrite (proj2 (has_id_true i f') Hid).
  - rewrite Hg. by apply IH.
Qed.

Lemma elem_of_replace_one i f' db g :
  g ∈ replace_one i f' db → g = f' ∨ g ∈ db.
Proof.
  induction db as [|h db IH]; simpl; [by right|].
  destruct (has_id i h); rewrite !elem_of_cons.
  - intros [->|Hg]; auto.
  - intros [->|Hg]; auto. destruct (IH Hg); auto.
Qed.

Lemma fresh_id_fresh db f : f ∈ db → _id f ≠ Some (fresh_id db).
Proof.
  intros Hf Hid. unfold fresh_id in Hid.
  assert (fresh_id db ∈ omap _id db) as Hin.
  { apply list_elem_of_omap. exists f. by split. }
  apply max_list_elem_of_le in Hin. unfold fresh_id in Hin. lia.
Qed.

Lemma get_app_fresh db f :
  _id f = Some (fresh_id db) → get (fresh_id db) (db ++ [f]) = Some f.
Proof.
  intros Hid. unfold get.
  assert (∀ l, (∀ g, g ∈ l → _id g ≠ Some (fresh_id db)) →
               List.find (has_id (fresh_id db)) (l ++ [f]) = Some f) as Hgen.
  { induction l as [|g l IH]; intros Hl; simpl.
    - by rewrite (proj2 (has_id_true _ f) Hid).
    - destruct (has_id (fresh_id db) g) eqn:Hg.
      + apply has_id_true in Hg. destruct (Hl g); [left|done].
      + apply IH. intros h Hh. apply Hl. by right. }
  apply Hgen. intros g. apply fresh_id_fresh.
Qed.

Lemma save_stored i db f flight :
  get i db = Some f → _id flight = Some i →
  save flight db = (inr flight, replace_one i flight db).
Proof.
  intros Hget Hid. unfold save. rewrite Hid.
  by rewrite (get_existsb _ _ _ Hget).
Qed.

(** ** Construction *)

Lemma Flight_init_values_departure n dep o d :
  (<["destination" := VStr d]>
     (<["origin" := VStr o]>
        (<["departure_time" := VDate dep]>
           (<["flight_number" := VStr n]> (∅ : gmap string Value)))))
    !! "departure_time" = Some (VDate dep).
Proof. by simplify_map_eq. Qed.

Lemma Flight_init_late n dep o d arr total avail bks :
  dep < arr →
  Flight_init n dep o d arr total avail bks
  = inr (mkFlight None n dep o d arr total avail bks).
Proof.
  intros Hlt. unfold Flight_init, validate_arrival_time.
  rewrite Flight_init_values_departure.
  by rewrite bool_decide_eq_false_2 by lia.
Qed.

Lemma Flight_init_early n dep o d arr total avail bks :
  arr ≤ dep →
  Flight_init n dep o d arr total avail bks = inl ValidationError.
Proof.
  intros Hle. unfold Flight_init, validate_arrival_time.
  rewrite Flight_init_values_departure.
  by rewrite bool_decide_eq_true_2 by lia.
Qed.

Lemma foldl_append_seat flight l :
  foldl append_seat flight l
  = set_bookings (bookings flight ++ (free_seat <$> l)) flight.
Proof.
  revert flight. induction l as [|i l IH]; intros flight; simpl.
  - rewrite app_nil_r. by destruct flight.
  - rewrite IH. unfold append_seat, set_bookings; simpl.
    by rewrite <- app_assoc.
Qed.

Lemma to_millis_le t u : t ≤ u → to_millis t ≤ to_millis u.
Proof. intros Hle. unfold to_millis. by apply Z.div_le_mono. Qed.


(** Every outcome of [add_flight] on times in the right order: the store
    refuses a seat count beyond its integers; otherwise the flight is
    written, and the validator passes on it again exactly when the two
    times are still apart once cut to milliseconds. *)
Lemma add_flight_late db n dep o d arr size :
  dep < arr →
  add_flight db n dep o d arr size
  = if bool_decide (int64 size) then
      if bool_decide (to_millis dep < to_millis arr)
      then (inr (Some (fresh_id db)),
            db ++ [new_flight db n (to_millis dep) o d (to_millis arr) size])
      else (inl ValidationError,
            db ++ [new_flight db n (to_millis dep) o d (to_millis arr) size])
    else (inl OverflowError, db).
Proof.
  intros Hlt. unfold add_flight. rewrite Flight_init_late by done.
  rewrite foldl_append_seat. unfold save. simpl.
  destruct (decide (int64 size)) as [Hsize|Hsize].
  - rewrite !bool_decide_eq_true_2 by done. unfold written. simpl.
    destruct (decide (to_millis dep < to_millis arr)) as [Hms|Hms].
    + rewrite Flight_init_late by done.
      by rewrite bool_decide_eq_true_2 by done.
    + rewrite Flight_init_early by lia.
      by rewrite bool_decide_eq_false_2 by done.
  - rewrite (bool_decide_eq_false_2 (int64 size)) by done.
    rewrite bool_decide_eq_false_2; [done|]. by intros [? _].
Qed.

(** What [add_flight] leaves in the collection, whatever it returns. *)
Lemma add_flight_collection db n dep o d arr size :
  (add_flight db n dep o d arr size).2
  = if bool_decide (dep < arr ∧ int64 size)
    then db ++ [new_flight db n (to_millis dep) o d (to_millis arr) size]
    else db.
Proof.
  destruct (decide (dep < arr)) as [Hlt|Hge].
  - rewrite add_flight_late by done.
    destruct (decide (int64 size)) as [Hsize|Hsize].
    + rewrite (bool_decide_eq_true_2 (int64 size)) by done.
      rewrite (bool_decide_eq_true_2 (dep < arr ∧ int64 size)) by done.
      by case_bool_decide.
    + rewrite (bool_decide_eq_false_2 (int64 size)) by done.
      rewrite bool_decide_eq_false_2; [done|]. by intros [_ ?].
  - unfold add_flight. rewrite Flight_init_early by lia.
    rewrite bool_decide_eq_false_2; [done|]. by intros [? _].
Qed.

Lemma free_seats_free l : Forall is_free (free_seat <$> l).
Proof. apply Forall_fmap, Forall_true. intros i. by repeat split. Qed.

Lemma count_available_free l :
  Forall is_free l → count_available l = length l.
Proof.
  unfold count_available. induction 1 as [|b l [Hb _] _ IH]; [done|].
  rewrite filter_cons_True by done. simpl. by rewrite IH.
Qed.

Lemma count_available_le l : (count_available l ≤ length l)%nat.
Proof. apply length_filter. Qed.

Lemma range_length n : 0 ≤ n → length (range n) = Z.to_nat n.
Proof. intros _. unfold range. apply length_seqZ. Qed.




(** Nor does [add_flight] return a flight for a seat count beyond the
    store's integers: the store refuses the document. *)
Example add_flight_seat_count_overflow :
  add_flight [] "AB123" 1000 "PEK" "SHA" 2000 (2 ^ 63)
  = (inl OverflowError, []).
Proof. rewrite add_flight_late by lia. reflexivity. Qed.

(** C8: when the arrival is not later than the departure, [add_flight]
    raises the validation error and the collection is left as it was. *)
Theorem add_flight_rejects_early_arrival db n dep o d arr N :
  arr ≤ dep → add_flight db n dep o d arr N = (inl ValidationError, db).
Proof.
  intros Hle. unfold add_flight. by rewrite Flight_init_early.
Qed.

Lemma add_flight_rejects_early_arrival_witness :
  add_flight [] "AB123" 10 "PEK" "SHA" 10 2 = (inl ValidationError, []).
Proof.
  apply (add_flight_rejects_early_arrival [] "AB123" 10 "PEK" "SHA" 10 2).
  lia.
Defined.

(** ** The booking loop *)

Section book_loop.
Context (db : list Flight) (flight : Flight) (seat pn pid : string)
        (status : BookingStatus) (now : datetime).

(** The loop passes over the records with another seat number and
    handles the first one with the requested number. *)
Lemma book_loop_found seen pre booking post :
  Forall (λ b, seat_number b ≠ seat) pre →
  seat_number booking = seat →
  book_loop db flight seen (pre ++ booking :: post) seat pn pid status now
  = book_seat db flight (seen ++ pre) booking post seat pn pid status now.
Proof.
  intros Hpre Hseat. revert seen.
  induction Hpre as [|b pre Hb _ IH]; intros seen; simpl.
  - rewrite bool_decide_eq_true_2 by done. by rewrite app_nil_r.
  - rewrite bool_decide_eq_false_2 by done.
    rewrite IH. by rewrite <- app_assoc.
Qed.

(** Without a record of that number the loop ends on line 156. *)
Lemma book_loop_missing seen todo :
  Forall (λ b, seat_number b ≠ seat) todo →
  book_loop db flight seen todo seat pn pid status now
  = (MsgSeatNumberError, db).
Proof.
  intros Htodo. revert seen.
  induction Htodo as [|b todo Hb _ IH]; intros seen; simpl; [done|].
  by rewrite bool_decide_eq_false_2 by done.
Qed.

(** Every list of records either lacks the number or splits at its
    first occurrence. *)
Lemma first_seat_split (l : list Booking) :
  Forall (λ b, seat_number b ≠ seat) l
  ∨ ∃ pre booking post,
      l = pre ++ booking :: post
      ∧ Forall (λ b, seat_number b ≠ seat) pre
      ∧ seat_number booking = seat.
Proof.
  induction l as [|b l [IH|(pre & booking & post & -> & Hpre & Hb)]].
  - by left.
  - destruct (decide (seat_number b = seat)) as [Heq|Hne].
    + right. by exists [], b, l.
    + left. by constructor.
  - destruct (decide (seat_number b = seat)) as [Heq|Hne].
    + right. by exists [], b, (pre ++ booking :: post).
    + right. exists (b :: pre), booking, post. by repeat split; [constructor|].
Qed.
End book_loop.

(** With seat numbers that are not repeated, the record at any position
    is the first one with its number. *)
Lemma seats_unique_first (l : list Booking) i booking :
  NoDup (seat_number <$> l) → l !! i = Some booking →
  l = take i l ++ booking :: drop (S i) l
  ∧ Forall (λ b, seat_number b ≠ seat_number booking) (take i l).
Proof.
  intros Hnd Hi. split; [by rewrite take_drop_middle|].
  rewrite <- (take_drop_middle l i booking Hi) in Hnd.
  rewrite fmap_app, fmap_cons in Hnd.
  apply NoDup_app in Hnd as (_ & Hdisj & _).
  apply Forall_forall. intros b Hb Heq.
  apply (Hdisj (seat_number b)).
  - apply list_elem_of_fmap. by exists b.
  - rewrite Heq. by left.
Qed.

(** ** [book_flight] on a stored flight *)

(** On a stored flight with distinct seat numbers, [book_flight] treats
    the record that carries the requested number. *)
Lemma book_flight_seat db fid flight i booking pn pid status now :
  get fid db = Some flight →
  seats_unique flight →
  bookings flight !! i = Some booking →
  book_flight db fid (seat_number booking) pn pid status now
  = book_seat db flight (take i (bookings flight)) booking
              (drop (S i) (bookings flight)) (seat_number booking)
              pn pid status now.
Proof.
  intros Hget Huniq Hi. unfold book_flight. rewrite Hget.
  destruct (seats_unique_first _ _ _ Huniq Hi) as [_ Hpre].
  pose proof (book_loop_found db flight (seat_number booking) pn pid status
                now [] _ booking (drop (S i) (bookings flight)) Hpre eq_refl)
    as Hloop.
  by rewrite (take_drop_middle _ _ _ Hi) in Hloop.
Qed.

Lemma book_flight_done db fid flight i booking pn pid status now :
  get fid db = Some flight →
  seats_unique flight →
  bookings flight !! i = Some booking →
  booking_status booking ≠ status →
  (status = AVAILABLE →
   passenger_id booking = Some pid ∧ passenger_name booking = Some pn) →
  let flight' := booked_flight flight i booking pn pid status now in
  book_flight db fid (seat_number booking) pn pid status now
  = (MsgBookingDone (seat_number booking) status, replace_one fid flight' db)
  ∧ get fid (replace_one fid flight' db) = Some flight'.
Proof.
  intros Hget Huniq Hi Hne Hown flight'.
  assert (_id flight' = Some fid) as Hid by (by apply get_Some_id in Hget).
  split; [|by eapply get_replace_one].
  rewrite (book_flight_seat _ _ _ _ _ _ _ _ _ Hget Huniq Hi).
  unfold book_seat. rewrite bool_decide_eq_false_2 by done.
  assert (bool_decide (status = AVAILABLE)
          && (bool_decide (passenger_id booking ≠ Some pid)
              || bool_decide (passenger_name booking ≠ Some pn)) = false)
    as ->.
  { destruct (decide (status = AVAILABLE)) as [Hs|Hs].
    - destruct (Hown Hs) as [Hpid Hpn].
      rewrite (bool_decide_eq_false_2 (_ ≠ Some pid)) by auto.
      rewrite (bool_decide_eq_false_2 (_ ≠ Some pn)) by auto.
      apply andb_false_r.
    - by rewrite bool_decide_eq_false_2 by done. }
  rewrite <- insert_take_drop by (by eapply lookup_lt_Some).
  match goal with |- context [save ?f db] => change f with flight' end.
  by rewrite (save_stored fid db flight flight' Hget Hid).
Qed.

(** C3: booking a seat whose record is AVAILABLE succeeds; afterwards the
    record is BOOKED, carries the given passenger name and id and a
    booking time, and [seats_available] is one less than before. *)
Theorem book_available_seat db fid flight i booking pn pid now :
  get fid db = Some flight →
  seats_unique flight →
  bookings flight !! i = Some booking →
  booking_status booking = AVAILABLE →
  ∃ db' flight',
    book_flight db fid (seat_number booking) pn pid BOOKED now
    = (MsgBookingDone (seat_number booking) BOOKED, db')
    ∧ get fid db' = Some flight'
    ∧ bookings flight' !! i
      = Some (mkBooking (seat_number booking) BOOKED
                        (Some pn) (Some pid) (Some now))
    ∧ bookings flight'
      = <[i := mkBooking (seat_number booking) BOOKED
                         (Some pn) (Some pid) (Some now)]> (bookings flight)
    ∧ seats_available flight' = seats_available flight - 1.
Proof.
  intros Hget Huniq Hi Hst.
  destruct (book_flight_done db fid flight i booking pn pid BOOKED now)
    as [Hrun Hget']; try done; [by rewrite Hst|].
  eexists _, _. split; [exact Hrun|]. split; [exact Hget'|].
  split; [|split]; simpl.
  - apply list_lookup_insert_eq. by eapply lookup_lt_Some.
  - done.
  - lia.
Qed.

(** C4: cancelling a BOOKED seat with the stored passenger name and id
    succeeds; afterwards the record is AVAILABLE with name, id and booking
    time cleared, and [seats_available] is one more than before. *)
Theorem cancel_booked_seat db fid flight i booking pn pid now :
  get fid db = Some flight →
  seats_unique flight →
  bookings flight !! i = Some booking →
  booking_status booking = BOOKED →
  passenger_name booking = Some pn →
  passenger_id booking = Some pid →
  ∃ db' flight',
    book_flight db fid (seat_number booking) pn pid AVAILABLE now
    = (MsgBookingDone (seat_number booking) AVAILABLE, db')
    ∧ get fid db' = Some flight'
    ∧ bookings flight' !! i
      = Some (mkBooking (seat_number booking) AVAILABLE None None None)
    ∧ bookings flight'
      = <[i := mkBooking (seat_number booking) AVAILABLE None None None]>
          (bookings flight)
    ∧ seats_available flight' = seats_available flight + 1.
Proof.
  intros Hget Huniq Hi Hst Hpn Hpid.
  destruct (book_flight_done db fid flight i booking pn pid AVAILABLE now)
    as [Hrun Hget']; try done; [by rewrite Hst|].
  eexists _, _. split; [exact Hrun|]. split; [exact Hget'|].
  split; [|split]; simpl.
  - apply list_lookup_insert_eq. by eapply lookup_lt_Some.
  - done.
  - lia.
Qed.

(** C5: cancelling a BOOKED seat under a passenger name or a passenger id
    that differs from the stored one ends with the identity message, and
    the collection, hence the record, the counter and all the rest of the
    flight, is what it was. *)
Theorem cancel_identity_mismatch db fid flight i booking pn pid now :
  get fid db = Some flight →
  seats_unique flight →
  bookings flight !! i = Some booking →
  booking_status booking = BOOKED →
  passenger_name booking ≠ Some pn ∨ passenger_id booking ≠ Some pid →
  book_flight db fid (seat_number booking) pn pid AVAILABLE now
  = (MsgIdentityMismatch, db).
Proof.
  intros Hget Huniq Hi Hst Hdiff.
  rewrite (book_flight_seat _ _ _ _ _ _ _ _ _ Hget Huniq Hi).
  unfold book_seat. rewrite Hst. simpl.
  destruct Hdiff as [Hpn|Hpid].
  - rewrite (bool_decide_eq_true_2 (_ ≠ Some pn)) by done.
    by rewrite orb_true_r.
  - by rewrite (bool_decide_eq_true_2 (_ ≠ Some pid)) by done.
Qed.

(** C6: asking for the status the seat already has (booking a BOOKED seat,
    cancelling an AVAILABLE one) ends with the seat-state message and
    leaves the collection, hence the record and the counter, as it was. *)
Theorem book_same_status db fid flight i booking pn pid status now :
  get fid db = Some flight →
  seats_unique flight →
  bookings flight !! i = Some booking →
  booking_status booking = status →
  book_flight db fid (seat_number booking) pn pid status now
  = (MsgSeatState (seat_number booking) status, db).
Proof.
  intros Hget Huniq Hi Hst.
  rewrite (book_flight_seat _ _ _ _ _ _ _ _ _ Hget Huniq Hi).
  unfold book_seat. by rewrite bool_decide_eq_true_2.
Qed.

(** ** Invariants of the stored flights *)

Section invariant.
Context (P : Flight → Prop) (ok : Op → Prop).

Hypothesis P_created : ∀ db n dep o d arr size,
  ok (AddFlight n dep o d arr size) → dep < arr →
  P (new_flight db n (to_millis dep) o d (to_millis arr) size).

Hypothesis P_booked : ∀ flight pre booking post pn pid status now,
  P flight →
  bookings flight = pre ++ booking :: post →
  booking_status booking ≠ status →
  P (set_seats_available
       (seats_available flight
        + (if bool_decide (status = BOOKED) then -1 else 1))
       (set_bookings
          (pre ++ update_booking booking pn pid status now :: post)
          flight)).

Lemma add_flight_preserves db n dep o d arr size :
  ok (AddFlight n dep o d arr size) →
  Forall P db → Forall P (add_flight db n dep o d arr size).2.
Proof.
  intros Hok Hdb. rewrite add_flight_collection.
  case_bool_decide as Hin; [|done]. destruct Hin as [Hlt _].
  apply Forall_app. split; [done|]. apply Forall_singleton. by apply P_created.
Qed.

Lemma book_flight_preserves db i seat pn pid status now :
  Forall P db → Forall P (book_flight db i seat pn pid status now).2.
Proof.
  intros Hdb. unfold book_flight.
  destruct (get i db) as [flight|] eqn:Hget; [|done].
  assert (P flight) as Hflight.
  { eapply Forall_forall; [exact Hdb|]. by eapply get_Some_elem. }
  destruct (first_seat_split seat (bookings flight))
    as [Hnone|(pre & booking & post & Heq & Hpre & Hseat)].
  - by rewrite book_loop_missing.
  - rewrite Heq, book_loop_found by done. simpl. unfold book_seat.
    destruct (bool_decide (booking_status booking = status)) eqn:Hst; [done|].
    apply bool_decide_eq_false in Hst.
    match goal with |- context [if ?c then _ else _] => destruct c end;
      [done|].
    match goal with |- context [save ?f db] =>
      assert (P f) as Hf by (by apply (P_booked flight pre booking post));
      assert (_id f = Some i) as Hid by (by apply get_Some_id in Hget);
      rewrite (save_stored i db flight f Hget Hid)
    end.
    simpl. apply Forall_forall. intros g Hg.
    apply elem_of_replace_one in Hg as [->|Hg]; [done|].
    by eapply Forall_forall in Hdb.
Qed.

Lemma run_op_preserves db op : ok op → Forall P db → Forall P (run_op db op).
Proof.
  destruct op; simpl; intros Hok Hdb.
  - by apply add_flight_preserves.
  - by apply book_flight_preserves.
Qed.

Lemma run_preserves ops db :
  Forall ok ops → Forall P db → Forall P (run ops db).
Proof.
  intros Hops. revert db. unfold run.
  induction Hops as [|op ops Hop _ IH]; intros db Hdb; simpl; [done|].
  apply IH. by apply run_op_preserves.
Qed.
End invariant.

(** *** Seat numbers stay distinct *)

Global Instance str_inj : Inj (=) (=) str.
Proof. unfold str. apply _. Qed.

Lemma new_flight_seats_unique db n dep o d arr size :
  seats_unique (new_flight db n dep o d arr size).
Proof.
  unfold seats_unique; simpl. rewrite <- list_fmap_compose.
  apply NoDup_fmap_2; [|apply NoDup_seqZ].
  intros i j Hij. simpl in Hij. apply (inj str) in Hij. lia.
Qed.

Lemma seat_number_update booking pn pid status now :
  seat_number (update_booking booking pn pid status now) = seat_number booking.
Proof. done. Qed.

(** Every flight that calls of [add_flight] and [book_flight] leave in an
    initially empty collection has distinct seat numbers. *)
Lemma run_seats_unique ops f : f ∈ run ops [] → seats_unique f.
Proof.
  intros Hf.
  assert (Forall seats_unique (run ops [])) as Hall.
  { apply (run_preserves seats_unique (λ _, True)).
    - intros. apply new_flight_seats_unique.
    - intros flight pre booking post pn pid status now Hfl Heq _.
      unfold seats_unique in *; simpl. rewrite Heq in Hfl.
      by rewrite fmap_app, fmap_cons in *.
    - by apply Forall_true.
    - constructor. }
  by eapply Forall_forall in Hall.
Qed.

(** *** The counter follows the seat records *)

Lemma counted_in_sync f : counted f → in_sync f.
Proof.
  intros [Hav Htot]. unfold in_sync. split; [done|].
  pose proof (count_available_le (bookings f)). lia.
Qed.

Lemma count_available_app l k :
  count_available (l ++ k) = (count_available l + count_available k)%nat.
Proof. unfold count_available. by rewrite filter_app, length_app. Qed.

Lemma count_available_cons b l :
  count_available (b :: l)
  = ((if bool_decide (booking_status b = AVAILABLE) then 1 else 0)
     + count_available l)%nat.
Proof.
  unfold count_available. rewrite filter_cons.
  destruct (decide (booking_status b = AVAILABLE)).
  - by rewrite bool_decide_eq_true_2.
  - by rewrite bool_decide_eq_false_2.
Qed.

Lemma new_flight_counted db n dep o d arr size :
  0 ≤ size → counted (new_flight db n dep o d arr size).
Proof.
  intros Hsize. unfold counted; simpl.
  rewrite count_available_free by apply free_seats_free.
  rewrite length_fmap, range_length by done. lia.
Qed.

Lemma booked_counted flight pre booking post pn pid status now :
  counted flight →
  bookings flight = pre ++ booking :: post →
  booking_status booking ≠ status →
  counted (set_seats_available
             (seats_available flight
              + (if bool_decide (status = BOOKED) then -1 else 1))
             (set_bookings
                (pre ++ update_booking booking pn pid status now :: post)
                flight)).
Proof.
  intros [Hav Htot] Heq Hne. unfold counted; simpl.
  rewrite Hav, Htot, Heq.
  rewrite !count_available_app, !count_available_cons, !length_app; simpl.
  destruct booking as [sn [] ? ? ?], status; simpl in *; try done; lia.
Qed.

(** In a run whose [add_flight] calls ask for no negative number of
    seats, no stored flight has a negative [seats_total]. *)
Lemma run_seats_total_nonneg ops f :
  Forall nonneg_size ops → f ∈ run ops [] → 0 ≤ seats_total f.
Proof.
  intros Hops Hf.
  assert (Forall (λ g, 0 ≤ seats_total g) (run ops [])) as Hall.
  { apply (run_preserves _ nonneg_size); [| |done|constructor].
    - intros db n dep o d arr size Hok _. exact Hok.
    - intros flight pre booking post pn pid status now Hfl _ _. exact Hfl. }
  by eapply Forall_forall in Hall.
Qed.

(** C7 (amended): [seats_total] is the seat count a flight was created
    with (line 57; nothing assigns it afterwards).  After any sequence of
    [add_flight] and [book_flight] calls, whether they succeed or not,
    every stored flight created with a non-negative seat count has
    [seats_available] equal to the number of its AVAILABLE seat records,
    and [0 ≤ seats_available ≤ seats_total]. *)
Theorem seats_available_in_sync ops f :
  f ∈ run ops [] → 0 ≤ seats_total f → in_sync f.
Proof.
  intros Hf Htotal. apply counted_in_sync.
  assert (Forall (λ g, 0 ≤ seats_total g → counted g) (run ops [])) as Hall.
  { apply (run_preserves _ (λ _, True)).
    - intros db n dep o d arr size _ _ Hsize. by apply new_flight_counted.
    - intros flight pre booking post pn pid status now Hfl Heq Hne Hsize.
      apply booked_counted; [by apply Hfl|done..].
    - by apply Forall_true.
    - constructor. }
  eapply Forall_forall in Hall; [by apply Hall|done].
Qed.

(** ** Queries *)

Lemma document_flight_number f :
  document f !! "flight_number" = Some (VStr (flight_number f)).
Proof. unfold document. destruct (_id f); by simplify_map_eq. Qed.

Lemma document_departure_time f :
  document f !! "departure_time" = Some (VDate (departure_time f)).
Proof. unfold document. destruct (_id f); by simplify_map_eq. Qed.

(** No stored flight has a field of the name that the [end_time] entry of
    the query is filed under. *)
Lemma document_departure_time__lt f :
  document f !! "departure_time__lt" = None.
Proof. unfold document. destruct (_id f); by simplify_map_eq. Qed.


Lemma filter_none {A} (P : A → Prop) `{!∀ x, Decision (P x)} (l : list A) :
  (∀ x, ¬ P x) → filter P l = [].
Proof.
  intros HP. induction l as [|x l IH]; [done|].
  by rewrite filter_cons_False.
Qed.



(** A query that carries the [end_time] entry matches no stored flight. *)
Lemma matches_end_time query t f :
  ¬ matches (<["departure_time__lt" := CLt (VDate t)]> query) f.
Proof.
  unfold matches. intros Hall.
  specialize (Hall "departure_time__lt" (CLt (VDate t))).
  rewrite lookup_insert_eq, document_departure_time__lt in Hall.
  by apply Hall.
Qed.

(** Whatever the other arguments, a call with [end_time] returns no
    flight. *)
Lemma get_flights_end_time_empty db n o d start t :
  get_flights db n o d start (Some t) = [].
Proof.
  unfold get_flights, find, get_query. simpl.
  apply filter_none. intros f. apply matches_end_time.
Qed.

(** The entry under ["flight_number"] is the one the first [if] files. *)
Lemma get_query_flight_number n o d start t :
  get_query n o d start t !! "flight_number"
  = match n with
    | Some s => if bool_decide (s = "") then None else Some (CEq (VStr s))
    | None => None
    end.
Proof.
  unfold get_query, str_filter, time_filter.
  destruct n as [s|], o as [so|], d as [sd|], start, t;
    repeat case_bool_decide; by simplify_map_eq.
Qed.

(** ** Worked runs *)

Example add_flight_two_seats :
  add_flight [] "AB123" 10000 "PEK" "SHA" 20000 2
  = (inr (Some 1%nat), [flight_two_seats]).
Proof. reflexivity. Qed.

Example book_flight_alice :
  book_flight [flight_two_seats] 1%nat "1" "Alice" "ID1" BOOKED 15
  = (MsgBookingDone "1" BOOKED, [flight_alice]).
Proof. reflexivity. Qed.

Example cancel_flight_bob :
  book_flight [flight_alice] 1%nat "1" "Bob" "ID2" AVAILABLE 16
  = (MsgIdentityMismatch, [flight_alice]).
Proof. reflexivity. Qed.

Example cancel_flight_alice :
  book_flight [flight_alice] 1%nat "1" "Alice" "ID1" AVAILABLE 16
  = (MsgBookingDone "1" AVAILABLE, [flight_two_seats]).
Proof. reflexivity. Qed.

Example run_example_ops : run example_ops [] = [flight_two_seats].
Proof. reflexivity. Qed.

Lemma book_available_seat_witness :
  ∃ db' flight',
    book_flight [flight_two_seats] 1%nat "1" "Alice" "ID1" BOOKED 15
    = (MsgBookingDone "1" BOOKED, db')
    ∧ get 1%nat db' = Some flight'
    ∧ bookings flight' !! 0%nat
      = Some (mkBooking "1" BOOKED (Some "Alice") (Some "ID1") (Some 15))
    ∧ bookings flight'
      = <[0%nat := mkBooking "1" BOOKED (Some "Alice") (Some "ID1") (Some 15)]>
          (bookings flight_two_seats)
    ∧ seats_available flight' = seats_available flight_two_seats - 1.
Proof.
  apply (book_available_seat [flight_two_seats] 1%nat flight_two_seats 0%nat
           (mkBooking "1" AVAILABLE None None None) "Alice" "ID1" 15).
  - reflexivity.
  - apply (bool_decide_unpack _). vm_compute. exact I.
  - reflexivity.
  - reflexivity.
Defined.

Lemma cancel_booked_seat_witness :
  ∃ db' flight',
    book_flight [flight_alice] 1%nat "1" "Alice" "ID1" AVAILABLE 16
    = (MsgBookingDone "1" AVAILABLE, db')
    ∧ get 1%nat db' = Some flight'
    ∧ bookings flight' !! 0%nat
      = Some (mkBooking "1" AVAILABLE None None None)
    ∧ bookings flight'
      = <[0%nat := mkBooking "1" AVAILABLE None None None]>
          (bookings flight_alice)
    ∧ seats_available flight' = seats_available flight_alice + 1.
Proof.
  apply (cancel_booked_seat [flight_alice] 1%nat flight_alice 0%nat
           (mkBooking "1" BOOKED (Some "Alice") (Some "ID1") (Some 15))
           "Alice" "ID1" 16).
  - reflexivity.
  - apply (bool_decide_unpack _). vm_compute. exact I.
  - reflexivity.
  - reflexivity.
  - reflexivity.
  - reflexivity.
Defined.

Lemma cancel_identity_mismatch_witness :
  book_flight [flight_alice] 1%nat "1" "Bob" "ID2" AVAILABLE 16
  = (MsgIdentityMismatch, [flight_alice]).
Proof.
  apply (cancel_identity_mismatch [flight_alice] 1%nat flight_alice 0%nat
           (mkBooking "1" BOOKED (Some "Alice") (Some "ID1") (Some 15))
           "Bob" "ID2" 16).
  - reflexivity.
  - apply (bool_decide_unpack _). vm_compute. exact I.
  - reflexivity.
  - reflexivity.
  - left. discriminate.
Defined.

Lemma book_same_status_witness :
  book_flight [flight_alice] 1%nat "1" "Carol" "ID3" BOOKED 16
  = (MsgSeatState "1" BOOKED, [flight_alice]).
Proof.
  apply (book_same_status [flight_alice] 1%nat flight_alice 0%nat
           (mkBooking "1" BOOKED (Some "Alice") (Some "ID1") (Some 15))
           "Carol" "ID3" BOOKED 16).
  - reflexivity.
  - apply (bool_decide_unpack _). vm_compute. exact I.
  - reflexivity.
  - reflexivity.
Defined.

Lemma seats_available_in_sync_witness : in_sync flight_two_seats.
Proof.
  apply (seats_available_in_sync example_ops flight_two_seats).
  - apply list_elem_of_In. vm_compute. left. reflexivity.
  - simpl. lia.
Defined.

(** C7, as stated, fails: a flight created with a negative seat count has
    a negative [seats_available] and no seat record at all. *)
Lemma negative_size_not_in_sync :
  ∃ f, f ∈ run [AddFlight "AB123" 10000 "PEK" "SHA" 20000 (-1)] []
       ∧ seats_available f = -1
       ∧ count_available (bookings f) = 0%nat
       ∧ ¬ in_sync f.
Proof.
  exists (mkFlight (Some 1%nat) "AB123" 10 "PEK" "SHA" 20 (-1) (-1) []).
  split; [by left|]. split; [done|]. split; [done|].
  intros [Hcount _]. simpl in Hcount. lia.
Qed.

(** C1, evaluated on a stored flight that departs at 10: with only
    [end_time = 20] the call returns no flight, while the flights that
    depart before 20 are that very flight.  The [end_time] entry is filed
    under the key ["departure_time__lt"], a field no document has, so it
    never reaches [departure_time]. *)
Theorem get_flights_end_time_only :
  get_flights [flight_two_seats] None None None None (Some 20) = []
  ∧ filter (λ f, departure_time f < 20) [flight_two_seats] = [flight_two_seats]
  ∧ get_query None None None None (Some 20) !! "departure_time" = None.
Proof.
  split; [apply get_flights_end_time_empty|]. split; [|done].
  by rewrite filter_cons_True.
Qed.




(** C10: an empty string given for [flight_number], [origin] or
    [destination] gives the same result as leaving that argument out; and
    whenever the query carries a ["flight_number"] entry, a flight whose
    number is the empty string is not among the flights returned. *)
Theorem get_flights_empty_string db n o d start t :
  get_flights db (Some "") o d start t = get_flights db None o d start t
  ∧ get_flights db n (Some "") d start t = get_flights db n None d start t
  ∧ get_flights db n o (Some "") start t = get_flights db n o None start t
  ∧ (∀ f, flight_number f = "" →
          is_Some (get_query n o d start t !! "flight_number") →
          f ∉ get_flights db n o d start t).
Proof.
  split; [done|]. split; [done|]. split; [done|].
  intros f Hf [c Hc] Hin.
  unfold get_flights, find in Hin.
  apply list_elem_of_filter in Hin as [Hm _].
  specialize (Hm "flight_number" c Hc).
  rewrite get_query_flight_number in Hc.
  destruct n as [s|]; [|done]. case_bool_decide as Hs; [done|].
  injection Hc as <-. rewrite document_flight_number in Hm. simpl in Hm.
  congruence.
Qed.

Lemma get_flights_empty_string_witness :
  flight_unnumbered
  ∉ get_flights [flight_two_seats; flight_unnumbered]
                (Some "AB123") None None None None.
Proof.
  apply (proj2 (proj2 (proj2
           (get_flights_empty_string [flight_two_seats; flight_unnumbered]
              (Some "AB123") None None None None)))).
  - reflexivity.
  - exists (CEq (VStr "AB123")). reflexivity.
Defined.

(** * Further properties of the repository *)

(** ** The store, continued *)

Lemma has_id_false i f : has_id i f = false ↔ _id f ≠ Some i.
Proof. unfold has_id. apply bool_decide_eq_false. Qed.

Lemma get_cons j g db :
  get j (g :: db) = if has_id j g then Some g else get j db.
Proof. done. Qed.

Lemma get_replace_one_ne i j f' db :
  _id f' = Some i → j ≠ i → get j (replace_one i f' db) = get j db.
Proof.
  intros Hid Hne. induction db as [|g db IH]; simpl; [done|].
  destruct (has_id i g) eqn:Hg.
  - rewrite !get_cons.
    rewrite (proj2 (has_id_false j f')) by (rewrite Hid; congruence).
    apply has_id_true in Hg.
    by rewrite (proj2 (has_id_false j g)) by (rewrite Hg; congruence).
  - rewrite !get_cons. by rewrite IH.
Qed.

Lemma fmap_replace_one {A} (g : Flight → A) i f f' db :
  get i db = Some f → g f' = g f → g <$> replace_one i f' db = g <$> db.
Proof.
  intros Hget Hg. induction db as [|h db IH]; simpl; [done|].
  rewrite get_cons in Hget. destruct (has_id i h); rewrite !fmap_cons.
  - injection Hget as ->. by rewrite Hg.
  - f_equal. by apply IH.
Qed.

Lemma replace_one_replace_one i f f' db :
  get i db = Some f → _id f' = Some i →
  replace_one i f (replace_one i f' db) = db.
Proof.
  intros Hget Hid. induction db as [|h db IH]; simpl; [done|].
  rewrite get_cons in Hget. destruct (has_id i h) eqn:Hh; simpl.
  - injection Hget as ->. by rewrite (proj2 (has_id_true i f') Hid).
  - rewrite Hh. f_equal. by apply IH.
Qed.

Lemma get_app_l j db k f : get j db = Some f → get j (db ++ k) = Some f.
Proof.
  induction db as [|g db IH]; [done|].
  rewrite <- app_comm_cons, !get_cons. destruct (has_id j g); [done|apply IH].
Qed.

Lemma get_unique_ids i f db :
  NoDup (_id <$> db) → f ∈ db → _id f = Some i → get i db = Some f.
Proof.
  intros Hnd Hin Hid. induction db as [|g db IH]; [by apply elem_of_nil in Hin|].
  rewrite fmap_cons in Hnd. apply NoDup_cons in Hnd as [Hg Hnd].
  rewrite get_cons. apply elem_of_cons in Hin as [<-|Hin].
  - by rewrite (proj2 (has_id_true i f) Hid).
  - destruct (has_id i g) eqn:Hgi; [|by apply IH].
    apply has_id_true in Hgi. destruct Hg. rewrite Hgi, <- Hid.
    apply list_elem_of_fmap. by exists f.
Qed.

(** ** Every path of [book_flight] *)

(** [book_flight] either prints a refusal and leaves the collection, or
    finds the first record with the seat number in another status and
    saves the flight with that record changed. *)
Lemma book_flight_cases db fid seat pn pid status now :
  (∃ m, m ≠ MsgBookingDone seat status
        ∧ book_flight db fid seat pn pid status now = (m, db))
  ∨ (∃ flight pre booking post,
       get fid db = Some flight
       ∧ bookings flight = pre ++ booking :: post
       ∧ Forall (λ b, seat_number b ≠ seat) pre
       ∧ seat_number booking = seat
       ∧ booking_status booking ≠ status
       ∧ (status = AVAILABLE →
          passenger_id booking = Some pid ∧ passenger_name booking = Some pn)
       ∧ book_flight db fid seat pn pid status now
         = (MsgBookingDone seat status,
            replace_one fid
              (rebooked flight pre booking post pn pid status now) db)).
Proof.
  unfold book_flight.
  destruct (get fid db) as [flight|] eqn:Hget; [|left; by exists MsgNoFlight].
  destruct (first_seat_split seat (bookings flight))
    as [Hnone|(pre & booking & post & Heq & Hpre & Hseat)].
  { left. rewrite book_loop_missing by done. by exists MsgSeatNumberError. }
  rewrite Heq, book_loop_found by done. simpl. unfold book_seat.
  destruct (decide (booking_status booking = status)) as [Hst|Hst].
  { left. rewrite bool_decide_eq_true_2 by done.
    by exists (MsgSeatState seat status). }
  rewrite bool_decide_eq_false_2 by done.
  destruct (bool_decide (status = AVAILABLE)
            && (bool_decide (passenger_id booking ≠ Some pid)
                || bool_decide (passenger_name booking ≠ Some pn))) eqn:Hown.
  { left. by exists MsgIdentityMismatch. }
  right. exists flight, pre, booking, post.
  repeat (split; [done|]). split.
  - intros ->. rewrite bool_decide_eq_true_2 in Hown by done. simpl in Hown.
    apply orb_false_iff in Hown as [Hpid Hpn].
    apply bool_decide_eq_false in Hpid, Hpn.
    split; [by destruct (decide (passenger_id booking = Some pid))
           |by destruct (decide (passenger_name booking = Some pn))].
  - match goal with |- context [save ?f db] =>
      change f with (rebooked flight pre booking post pn pid status now)
    end.
    rewrite (save_stored fid db flight); [done|done|].
    by apply get_Some_id in Hget.
Qed.

Lemma rebooked_itinerary flight pre booking post pn pid status now :
  itinerary (rebooked flight pre booking post pn pid status now)
  = itinerary flight.
Proof. done. Qed.

Lemma rebooked_seat_numbers flight pre booking post pn pid status now :
  bookings flight = pre ++ booking :: post →
  seat_numbers (rebooked flight pre booking post pn pid status now)
  = seat_numbers flight.
Proof.
  intros Heq. unfold seat_numbers. simpl.
  by rewrite Heq, !fmap_app, !fmap_cons.
Qed.

(** Whatever of a flight the saved one keeps, the collection keeps too,
    position by position. *)
Lemma book_flight_fmap {A} (g : Flight → A) db fid seat pn pid status now :
  (∀ flight pre booking post,
     bookings flight = pre ++ booking :: post →
     g (rebooked flight pre booking post pn pid status now) = g flight) →
  g <$> (book_flight db fid seat pn pid status now).2 = g <$> db.
Proof.
  intros Hg.
  destruct (book_flight_cases db fid seat pn pid status now)
    as [(m & _ & ->)
       |(flight & pre & booking & post & Hget & Heq & _ & _ & _ & _ & ->)];
    [done|].
  simpl. eapply fmap_replace_one; [done|]. by apply Hg.
Qed.

(** X1: asking a stored flight for a seat number that none of its records
    has ends with the seat number message, and the collection is what it
    was. *)
Theorem book_flight_unknown_seat db fid flight seat pn pid status now :
  get fid db = Some flight →
  seat ∉ seat_numbers flight →
  book_flight db fid seat pn pid status now = (MsgSeatNumberError, db).
Proof.
  intros Hget Hseat. unfold book_flight. rewrite Hget.
  apply book_loop_missing. apply Forall_forall. intros b Hb Heq.
  apply Hseat. unfold seat_numbers. apply list_elem_of_fmap. by exists b.
Qed.

Lemma book_flight_unknown_seat_witness :
  book_flight [flight_two_seats] 1%nat "3" "Alice" "ID1" BOOKED 15
  = (MsgSeatNumberError, [flight_two_seats]).
Proof.
  apply (book_flight_unknown_seat [flight_two_seats] 1%nat flight_two_seats
           "3" "Alice" "ID1" BOOKED 15).
  - reflexivity.
  - apply (bool_decide_unpack _). vm_compute. exact I.
Defined.

(** X2: under an identity that no stored flight has, [book_flight] ends
    with the no-flight message and the collection is what it was. *)
Theorem book_flight_unknown_flight db fid seat pn pid status now :
  Some fid ∉ _id <$> db →
  book_flight db fid seat pn pid status now = (MsgNoFlight, db).
Proof.
  intros Hid. unfold book_flight.
  destruct (get fid db) as [flight|] eqn:Hget; [|done].
  destruct Hid. apply list_elem_of_fmap. exists flight. split.
  - symmetry. by eapply get_Some_id.
  - by eapply get_Some_elem.
Qed.

Lemma book_flight_unknown_flight_witness :
  book_flight [flight_two_seats] 7%nat "1" "Alice" "ID1" BOOKED 15
  = (MsgNoFlight, [flight_two_seats]).
Proof.
  apply (book_flight_unknown_flight [flight_two_seats] 7%nat
           "1" "Alice" "ID1" BOOKED 15).
  apply (bool_decide_unpack _). vm_compute. exact I.
Defined.

(** X3: unless [book_flight] prints the success line, the collection it
    leaves is the one it was given. *)
Theorem book_flight_refusal_keeps_collection db fid seat pn pid status now :
  (book_flight db fid seat pn pid status now).1 ≠ MsgBookingDone seat status →
  (book_flight db fid seat pn pid status now).2 = db.
Proof.
  intros Hmsg.
  destruct (book_flight_cases db fid seat pn pid status now)
    as [(m & _ & Hrun)|(flight & pre & booking & post & Hrest)].
  - by rewrite Hrun.
  - destruct Hrest as (_ & _ & _ & _ & _ & _ & Hrun).
    rewrite Hrun in Hmsg. by destruct Hmsg.
Qed.

Lemma book_flight_refusal_keeps_collection_witness :
  (book_flight [flight_alice] 1%nat "1" "Bob" "ID2" AVAILABLE 16).2
  = [flight_alice].
Proof.
  apply (book_flight_refusal_keeps_collection [flight_alice] 1%nat
           "1" "Bob" "ID2" AVAILABLE 16).
  vm_compute. discriminate.
Defined.

(** X4: [book_flight] never adds, drops or reorders flights, and changes
    nothing of a flight but its counter and the state of its seats: the
    identities, flight numbers, times, places and seat totals of the
    collection, and the seat labels of every flight, stay as they were,
    position by position. *)
Theorem book_flight_frame db fid seat pn pid status now :
  itinerary <$> (book_flight db fid seat pn pid status now).2
  = itinerary <$> db
  ∧ seat_numbers <$> (book_flight db fid seat pn pid status now).2
    = seat_numbers <$> db.
Proof.
  split; apply book_flight_fmap; intros flight pre booking post Heq.
  - apply rebooked_itinerary.
  - by apply rebooked_seat_numbers.
Qed.

(** X5: a call of [book_flight] for one flight leaves every other stored
    flight as it was. *)
Theorem book_flight_other_flights db fid j seat pn pid status now :
  j ≠ fid →
  get j (book_flight db fid seat pn pid status now).2 = get j db.
Proof.
  intros Hne.
  destruct (book_flight_cases db fid seat pn pid status now)
    as [(m & _ & ->)
       |(flight & pre & booking & post & Hget & _ & _ & _ & _ & _ & ->)];
    [done|].
  simpl. apply get_replace_one_ne; [|done].
  by apply get_Some_id in Hget.
Qed.

Lemma book_flight_other_flights_witness :
  get 2%nat (book_flight [flight_two_seats; flight_unnumbered] 1%nat
               "1" "Alice" "ID1" BOOKED 15).2
  = get 2%nat [flight_two_seats; flight_unnumbered].
Proof.
  apply (book_flight_other_flights [flight_two_seats; flight_unnumbered]
           1%nat 2%nat "1" "Alice" "ID1" BOOKED 15).
  lia.
Defined.

(** ** Every combination of filters *)

Lemma document_origin f : document f !! "origin" = Some (VStr (origin f)).
Proof. unfold document. destruct (_id f); by simplify_map_eq. Qed.

Lemma document_destination f :
  document f !! "destination" = Some (VStr (destination f)).
Proof. unfold document. destruct (_id f); by simplify_map_eq. Qed.

Lemma str_filter_lookup_ne key k arg (q : gmap string Cond) :
  key ≠ k → str_filter key arg q !! k = q !! k.
Proof.
  intros Hne. unfold str_filter. destruct arg as [s|]; [|done].
  case_bool_decide; [done|]. by rewrite lookup_insert_ne.
Qed.

Lemma matches_str_filter key arg (q : gmap string Cond) f v :
  q !! key = None →
  document f !! key = Some (VStr v) →
  matches (str_filter key arg q) f ↔ wanted arg v ∧ matches q f.
Proof.
  intros Hq Hdoc. unfold str_filter, wanted.
  destruct arg as [s|]; [|tauto].
  case_bool_decide as Hs; [tauto|].
  unfold matches. rewrite map_Forall_insert by done. rewrite Hdoc. simpl.
  split.
  - intros [Heq Hall]. split; [right; congruence|done].
  - intros [[? | ->] Hall]; [done|]. by split.
Qed.

Lemma matches_start_filter start (q : gmap string Cond) f :
  q !! "departure_time" = None →
  matches (time_filter "departure_time" CGte start q) f
  ↔ not_before start (departure_time f) ∧ matches q f.
Proof.
  intros Hq. unfold time_filter, not_before.
  destruct start as [t|]; [|tauto].
  unfold matches. rewrite map_Forall_insert by done.
  by rewrite document_departure_time.
Qed.

(** Without [end_time], the flights returned are those that pass every
    given filter. *)
Lemma get_flights_selected db n o d start :
  get_flights db n o d start None = filter (selected n o d start) db.
Proof.
  unfold get_flights, find, get_query.
  change (time_filter "departure_time__lt" CLt None ?q) with q.
  apply list_filter_iff. intros f.
  rewrite matches_start_filter
    by (by rewrite !str_filter_lookup_ne, lookup_empty by done).
  rewrite (matches_str_filter "destination" d _ f (destination f))
    by (by rewrite ?str_filter_lookup_ne, ?lookup_empty, ?document_destination
          by done).
  rewrite (matches_str_filter "origin" o _ f (origin f))
    by (by rewrite ?str_filter_lookup_ne, ?lookup_empty, ?document_origin
          by done).
  rewrite (matches_str_filter "flight_number" n _ f (flight_number f))
    by (by rewrite ?lookup_empty, ?document_flight_number).
  unfold selected. pose proof (map_Forall_empty
    (λ key c, holds c (document f !! key)) : matches ∅ f). tauto.
Qed.


Lemma fmap_filter_related {A B} (g : A → B) (P : A → Prop)
    `{!∀ x, Decision (P x)} (l l' : list A) :
  (∀ x y, g x = g y → P x → P y) →
  g <$> l = g <$> l' →
  g <$> filter P l = g <$> filter P l'.
Proof.
  intros HP. revert l'.
  induction l as [|x l IH]; intros [|y l'] Heq; try done.
  rewrite !fmap_cons in Heq. injection Heq as Hxy Heq.
  rewrite !filter_cons.
  destruct (decide (P x)) as [Hx|Hx], (decide (P y)) as [Hy|Hy].
  - rewrite !fmap_cons. f_equal; [done|by apply IH].
  - destruct Hy. by eapply HP.
  - destruct Hx. by eapply HP.
  - by apply IH.
Qed.

Lemma selected_itinerary n o d start f f' :
  itinerary f = itinerary f' → selected n o d start f → selected n o d start f'.
Proof.
  unfold itinerary, selected. intros [= _ Hn Hdep Ho Hd _ _].
  by rewrite Hn, Hdep, Ho, Hd.
Qed.

(** X7: booking and cancelling seats does not change what a query finds:
    after any call of [book_flight], [get_flights] returns flights of the
    same identities, numbers, times and places, in the same order, as
    before the call. *)
Theorem get_flights_after_booking db fid seat pn pid status now n o d start t :
  itinerary <$> get_flights (book_flight db fid seat pn pid status now).2
                            n o d start t
  = itinerary <$> get_flights db n o d start t.
Proof.
  destruct t as [t|].
  - by rewrite !get_flights_end_time_empty.
  - rewrite !get_flights_selected. apply fmap_filter_related.
    + intros f f'. apply selected_itinerary.
    + apply book_flight_fmap. intros. apply rebooked_itinerary.
Qed.

(** ** What every run keeps *)

Lemma run_op_ids_distinct db op : ids_distinct db → ids_distinct (run_op db op).
Proof.
  intros [Hnd Hnone]. destruct op as [n dep o d arr size|i seat pn pid st now].
  - simpl. rewrite add_flight_collection.
    case_bool_decide; [|done]. unfold ids_distinct.
    rewrite fmap_app. simpl. split.
    + apply NoDup_app. split; [done|]. split; [|apply NoDup_singleton].
      intros x Hx Hfresh. apply list_elem_of_singleton in Hfresh as ->.
      apply list_elem_of_fmap in Hx as (f & Hid & Hf).
      by apply (fresh_id_fresh db f).
    + rewrite elem_of_app, list_elem_of_singleton. by intros [?|?].
  - simpl. unfold ids_distinct. by rewrite book_flight_fmap.
Qed.

Lemma run_ids_distinct ops db : ids_distinct db → ids_distinct (run ops db).
Proof.
  revert db. unfold run.
  induction ops as [|op ops IH]; intros db Hdb; simpl; [done|].
  by apply IH, run_op_ids_distinct.
Qed.

Lemma ids_distinct_nil : ids_distinct [].
Proof. split; [constructor|apply not_elem_of_nil]. Qed.

(** X8: after any sequence of [add_flight] and [book_flight] calls, every
    stored flight has an identity and no two stored flights share one. *)
Theorem run_identities_distinct ops :
  NoDup (_id <$> run ops []) ∧ Forall (λ f, is_Some (_id f)) (run ops []).
Proof.
  destruct (run_ids_distinct ops [] ids_distinct_nil) as [Hnd Hnone].
  split; [done|]. apply Forall_forall. intros f Hf.
  destruct (_id f) as [i|] eqn:Hid; [by eexists|].
  destruct Hnone. apply list_elem_of_fmap. by exists f.
Qed.

(** X9: after any sequence of calls, a flight that [get_flights] returns
    can be fetched back: [get] under its identity returns this very
    flight. *)
Theorem get_flights_fetchable ops n o d start t f :
  f ∈ get_flights (run ops []) n o d start t →
  ∃ i, _id f = Some i ∧ get i (run ops []) = Some f.
Proof.
  intros Hf. unfold get_flights, find in Hf.
  apply list_elem_of_filter in Hf as [_ Hf].
  destruct (run_ids_distinct ops [] ids_distinct_nil) as [Hnd Hnone].
  destruct (_id f) as [i|] eqn:Hid.
  - exists i. split; [done|]. by apply get_unique_ids.
  - destruct Hnone. apply list_elem_of_fmap. by exists f.
Qed.

Lemma get_flights_fetchable_witness :
  ∃ i, _id flight_two_seats = Some i
       ∧ get i (run example_ops []) = Some flight_two_seats.
Proof.
  apply (get_flights_fetchable example_ops (Some "AB123") None None None None
           flight_two_seats).
  apply list_elem_of_In. vm_compute. left. reflexivity.
Defined.

(** X10: after any sequence of calls, no stored flight arrives before it
    departs.  The two times can be equal: the validator wants the arrival
    strictly later, but it is the store that cuts them to milliseconds. *)
Theorem run_arrival_not_before_departure ops f :
  f ∈ run ops [] → departure_time f ≤ estimated_arrival_time f.
Proof.
  intros Hf.
  assert (Forall (λ g, departure_time g ≤ estimated_arrival_time g)
                 (run ops [])) as Hall.
  { apply (run_preserves _ (λ _, True)).
    - intros db n dep o d arr size _ Hlt. simpl. apply to_millis_le. lia.
    - intros flight pre booking post pn pid status now Hfl _ _. exact Hfl.
    - by apply Forall_true.
    - constructor. }
  by eapply Forall_forall in Hall.
Qed.

Lemma run_arrival_not_before_departure_witness :
  departure_time flight_two_seats ≤ estimated_arrival_time flight_two_seats.
Proof.
  apply (run_arrival_not_before_departure example_ops flight_two_seats).
  apply list_elem_of_In. vm_compute. left. reflexivity.
Defined.

(** The two times of a stored flight can indeed be equal. *)
Example run_arrival_equal_departure :
  run [AddFlight "AB123" 1000 "PEK" "SHA" 1001 0] []
  = [mkFlight (Some 1%nat) "AB123" 1 "PEK" "SHA" 1 0 0 []].
Proof. reflexivity. Qed.

Lemma count_booked_app l k :
  count_booked (l ++ k) = (count_booked l + count_booked k)%nat.
Proof. unfold count_booked. by rewrite filter_app, length_app. Qed.

Lemma count_booked_cons b l :
  count_booked (b :: l)
  = ((if bool_decide (booking_status b = BOOKED) then 1 else 0)
     + count_booked l)%nat.
Proof.
  unfold count_booked. rewrite filter_cons.
  destruct (decide (booking_status b = BOOKED)).
  - by rewrite bool_decide_eq_true_2.
  - by rewrite bool_decide_eq_false_2.
Qed.

Lemma count_booked_free l : Forall is_free l → count_booked l = 0%nat.
Proof.
  unfold count_booked. induction 1 as [|b l [Hb _] _ IH]; [done|].
  rewrite filter_cons_False; [done|]. rewrite Hb. discriminate.
Qed.

(** X11: after any sequence of calls, with any seat counts, the gap
    between [seats_total] and [seats_available] of a stored flight is the
    number of its BOOKED seat records. *)
Theorem run_booked_count ops f :
  f ∈ run ops [] →
  seats_total f - seats_available f = Z.of_nat (count_booked (bookings f)).
Proof.
  intros Hf.
  assert (Forall (λ g, seats_total g - seats_available g
                       = Z.of_nat (count_booked (bookings g)))
                 (run ops [])) as Hall.
  { apply (run_preserves _ (λ _, True)).
    - intros db n dep o d arr size _ _. simpl.
      rewrite count_booked_free by apply free_seats_free. lia.
    - intros flight pre booking post pn pid status now Hfl Heq Hne. simpl.
      rewrite Heq in Hfl.
      rewrite !count_booked_app, !count_booked_cons in *. simpl.
      destruct booking as [sn [] ? ? ?], status; simpl in *; try done; lia.
    - by apply Forall_true.
    - constructor. }
  by eapply Forall_forall in Hall.
Qed.

Lemma run_booked_count_witness :
  seats_total flight_two_seats - seats_available flight_two_seats
  = Z.of_nat (count_booked (bookings flight_two_seats)).
Proof.
  apply (run_booked_count example_ops flight_two_seats).
  apply list_elem_of_In. vm_compute. left. reflexivity.
Defined.

Lemma update_booking_filled booking pn pid status now :
  filled (update_booking booking pn pid status now).
Proof. unfold filled. destruct status; simpl; eauto. Qed.

(** X12: after any sequence of calls, every seat record of a stored
    flight has its passenger fields in step with its status: an AVAILABLE
    record has no passenger name, id or booking time, a BOOKED record has
    all three. *)
Theorem run_passenger_fields ops f b :
  f ∈ run ops [] → b ∈ bookings f → filled b.
Proof.
  intros Hf Hb.
  assert (Forall (λ g, Forall filled (bookings g)) (run ops [])) as Hall.
  { apply (run_preserves _ (λ _, True)).
    - intros db n dep o d arr size _ _. simpl.
      apply Forall_fmap, Forall_true. intros i. by repeat split.
    - intros flight pre booking post pn pid status now Hfl Heq _. simpl.
      rewrite Heq in Hfl. apply Forall_app in Hfl as [Hpre Hpost].
      apply Forall_cons in Hpost as [_ Hpost].
      apply Forall_app. split; [done|]. apply Forall_cons.
      split; [apply update_booking_filled|done].
    - by apply Forall_true.
    - constructor. }
  eapply Forall_forall in Hall; [|done].
  by eapply Forall_forall in Hall.
Qed.

Lemma run_passenger_fields_witness :
  filled (mkBooking "1" AVAILABLE None None None).
Proof.
  apply (run_passenger_fields example_ops flight_two_seats).
  - apply list_elem_of_In. vm_compute. left. reflexivity.
  - left.
Defined.

Lemma free_seat_numbers size :
  seat_number <$> (free_seat <$> range size) = str <$> seqZ 1 size.
Proof.
  unfold range.
  replace (seqZ 1 size) with (Z.add 1 <$> seqZ 0 size)
    by apply (fmap_add_seqZ 1 0 size).
  rewrite <- !list_fmap_compose. apply list_fmap_ext.
  intros _ i _. simpl. f_equal. lia.
Qed.

(** X13: after any sequence of calls, the seat records of a stored flight
    are labelled ["1"], ["2"], ... up to [seats_total], in this order;
    their number never changes. *)
Theorem run_seat_labels ops f :
  f ∈ run ops [] →
  seat_numbers f = str <$> seqZ 1 (seats_total f)
  ∧ Z.of_nat (length (bookings f)) = Z.max 0 (seats_total f).
Proof.
  intros Hf.
  assert (Forall (λ g, seat_numbers g = str <$> seqZ 1 (seats_total g))
                 (run ops [])) as Hall.
  { apply (run_preserves _ (λ _, True)).
    - intros db n dep o d arr size _ _. apply free_seat_numbers.
    - intros flight pre booking post pn pid status now Hfl Heq _.
      etransitivity; [|exact Hfl].
      exact (rebooked_seat_numbers flight pre booking post pn pid status
               now Heq).
    - by apply Forall_true.
    - constructor. }
  eapply Forall_forall in Hall; [|done]. split; [done|].
  apply (f_equal length) in Hall. unfold seat_numbers in Hall.
  rewrite !length_fmap, length_seqZ in Hall. lia.
Qed.

Lemma run_seat_labels_witness :
  seat_numbers flight_two_seats = str <$> seqZ 1 (seats_total flight_two_seats)
  ∧ Z.of_nat (length (bookings flight_two_seats))
    = Z.max 0 (seats_total flight_two_seats).
Proof.
  apply (run_seat_labels example_ops flight_two_seats).
  apply list_elem_of_In. vm_compute. left. reflexivity.
Defined.

(** ** Calls in sequence *)

Lemma booked_flight_seats_unique flight i booking pn pid status now :
  bookings flight !! i = Some booking →
  seats_unique flight →
  seats_unique (booked_flight flight i booking pn pid status now).
Proof.
  intros Hi Huniq. unfold seats_unique in *. simpl.
  rewrite list_fmap_insert. simpl.
  rewrite list_insert_id; [done|]. by rewrite list_lookup_fmap, Hi.
Qed.

Lemma booked_flight_undo flight i booking pn pid t1 t2 :
  bookings flight !! i = Some booking →
  is_free booking →
  booked_flight (booked_flight flight i booking pn pid BOOKED t1) i
                (update_booking booking pn pid BOOKED t1) pn pid AVAILABLE t2
  = flight.
Proof.
  intros Hi (Hst & Hpn & Hpid & Htime).
  destruct flight as [fid fn dep o d arr total avail bks].
  destruct booking as [sn st name ident time]. simpl in *. subst.
  unfold booked_flight, set_seats_available, set_bookings, update_booking.
  simpl. f_equal; [lia|].
  rewrite list_insert_insert_eq. by apply list_insert_id.
Qed.

(** X14: booking a free seat and then cancelling it under the same name
    and id gives back the collection as it was before the two calls. *)
Theorem book_then_cancel db fid flight i booking pn pid t1 t2 :
  get fid db = Some flight →
  seats_unique flight →
  bookings flight !! i = Some booking →
  is_free booking →
  book_flight
    (book_flight db fid (seat_number booking) pn pid BOOKED t1).2
    fid (seat_number booking) pn pid AVAILABLE t2
  = (MsgBookingDone (seat_number booking) AVAILABLE, db).
Proof.
  intros Hget Huniq Hi Hfree.
  pose proof Hfree as (Hst & _).
  destruct (book_flight_done db fid flight i booking pn pid BOOKED t1)
    as [Hrun1 Hget1]; try done; [by rewrite Hst|].
  rewrite Hrun1. simpl.
  set (flight1 := booked_flight flight i booking pn pid BOOKED t1) in *.
  set (booking1 := update_booking booking pn pid BOOKED t1).
  destruct (book_flight_done (replace_one fid flight1 db) fid flight1 i
              booking1 pn pid AVAILABLE t2) as [Hrun2 _]; try done.
  - by apply booked_flight_seats_unique.
  - simpl. apply list_lookup_insert_eq. by eapply lookup_lt_Some.
  - change (seat_number booking1) with (seat_number booking) in Hrun2.
    rewrite Hrun2. f_equal. unfold flight1 at 1, booking1.
    rewrite booked_flight_undo by done.
    apply replace_one_replace_one; [done|].
    by apply get_Some_id in Hget.
Qed.

Lemma book_then_cancel_witness :
  book_flight
    (book_flight [flight_two_seats] 1%nat "1" "Alice" "ID1" BOOKED 15).2
    1%nat "1" "Alice" "ID1" AVAILABLE 16
  = (MsgBookingDone "1" AVAILABLE, [flight_two_seats]).
Proof.
  apply (book_then_cancel [flight_two_seats] 1%nat flight_two_seats 0%nat
           (mkBooking "1" AVAILABLE None None None) "Alice" "ID1" 15 16).
  - reflexivity.
  - apply (bool_decide_unpack _). vm_compute. exact I.
  - reflexivity.
  - by repeat split.
Defined.

(** X15: on a flight just created with [size] seats, that is, once
    [add_flight] has returned its identity, [book_flight] for the seat
    labelled [k] books it when [1 ≤ k ≤ size], and ends with the seat
    number message for every other [k]. *)
Theorem new_flight_seat_bounds db n dep o d arr size i db' k pn pid now :
  add_flight db n dep o d arr size = (inr (Some i), db') →
  (book_flight db' i (str k) pn pid BOOKED now).1
  = if bool_decide (1 ≤ k ≤ size) then MsgBookingDone (str k) BOOKED
    else MsgSeatNumberError.
Proof.
  intros Hadd.
  assert (dep < arr) as Hlt.
  { destruct (decide (dep < arr)) as [|Hge]; [done|].
    unfold add_flight in Hadd. by rewrite Flight_init_early in Hadd by lia. }
  rewrite add_flight_late in Hadd by done.
  destruct (bool_decide (int64 size)); [|done].
  destruct (bool_decide (to_millis dep < to_millis arr)); [|done].
  simplify_eq.
  set (flight := new_flight db n (to_millis dep) o d (to_millis arr) size).
  assert (get (fresh_id db) (db ++ [flight]) = Some flight) as Hget
    by (by apply get_app_fresh).
  case_bool_decide as Hk.
  - assert (bookings flight !! Z.to_nat (k - 1) = Some (free_seat (k - 1)))
      as Hi.
    { simpl. rewrite list_lookup_fmap. unfold range.
      rewrite lookup_seqZ_lt by lia. simpl. f_equal. f_equal. lia. }
    assert (seat_number (free_seat (k - 1)) = str k) as Hseat
      by (simpl; f_equal; lia).
    destruct (book_flight_done (db ++ [flight]) (fresh_id db) flight
                (Z.to_nat (k - 1)) (free_seat (k - 1)) pn pid BOOKED now)
      as [Hrun _]; try done.
    + apply new_flight_seats_unique.
    + rewrite Hseat in Hrun. by rewrite Hrun.
  - unfold book_flight. rewrite Hget.
    rewrite book_loop_missing; [done|].
    simpl. apply Forall_fmap, Forall_forall. intros j Hj. simpl.
    unfold range in Hj. apply elem_of_seqZ in Hj.
    intros Heq. apply (inj str) in Heq. lia.
Qed.

Lemma new_flight_seat_bounds_witness :
  (book_flight [flight_two_seats] 1%nat (str 3) "Alice" "ID1" BOOKED 15).1
  = if bool_decide (1 ≤ 3 ≤ 2) then MsgBookingDone (str 3) BOOKED
    else MsgSeatNumberError.
Proof.
  apply (new_flight_seat_bounds [] "AB123" 10000 "PEK" "SHA" 20000 2
           1%nat [flight_two_seats] 3 "Alice" "ID1" 15).
  reflexivity.
Defined.

(** X16: [add_flight] only ever appends: the collection it leaves starts
    with the flights it was given, unchanged and in their order, holds at
    most one flight more, and [get] still returns each earlier flight
    under its identity. *)
Theorem add_flight_keeps_flights db n dep o d arr size :
  db `prefix_of` (add_flight db n dep o d arr size).2
  ∧ (length (add_flight db n dep o d arr size).2 ≤ S (length db))%nat
  ∧ (∀ j f, get j db = Some f →
            get j (add_flight db n dep o d arr size).2 = Some f).
Proof.
  rewrite add_flight_collection. case_bool_decide.
  - split; [by eexists|].
    split; [rewrite length_app; simpl; lia|].
    intros j f. apply get_app_l.
  - split; [done|]. split; [lia|done].
Qed.

Lemma add_flight_keeps_flights_witness :
  get 1%nat (add_flight [flight_two_seats] "CD456" 30000 "SHA" "PEK" 40000 3).2
  = Some flight_two_seats.
Proof.
  apply (proj2 (proj2 (add_flight_keeps_flights [flight_two_seats]
                         "CD456" 30000 "SHA" "PEK" 40000 3))).
  reflexivity.
Defined.

(** * The console *)

Lemma run_app ops1 ops2 db : run (ops1 ++ ops2) db = run ops2 (run ops1 db).
Proof. unfold run. apply foldl_app. Qed.

Lemma tame_ret {A} (a : A) : tame (FlightManagementSystem.ret a).
Proof. intros w. split; [by exists []|done]. Qed.

Lemma tame_raise {A} e : tame (@FlightManagementSystem.raise A e).
Proof. intros w. split; [by exists []|done]. Qed.

Lemma tame_bind {A B} (m : FlightManagementSystem.M A)
    (k : A → FlightManagementSystem.M B) :
  tame m → (∀ a, tame (k a)) → tame (FlightManagementSystem.bind m k).
Proof.
  intros Hm Hk w. unfold FlightManagementSystem.bind.
  destruct (Hm w) as [[ops1 Hdb1] Hin1].
  destruct (m w) as [[e|a] w1]; simpl in *.
  - split; [by exists ops1|done].
  - destruct (Hk a w1) as [[ops2 Hdb2] Hin2]. split; [|lia].
    exists (ops1 ++ ops2). by rewrite run_app, <- Hdb1.
Qed.

Lemma tame_input : tame FlightManagementSystem.input.
Proof.
  intros [[|line rest] db]; simpl; (split; [by exists []|simpl; lia]).
Qed.

Lemma tame_DBC_add_flight n dep o d arr size :
  tame (FlightManagementSystem.DBC_add_flight n dep o d arr size).
Proof.
  intros w. unfold FlightManagementSystem.DBC_add_flight.
  split.
  - exists [AddFlight n dep o d arr size]. simpl.
    by destruct (add_flight _ n dep o d arr size) as [[e|i] db].
  - by destruct (add_flight _ n dep o d arr size) as [[e|i] db].
Qed.

Lemma tame_DBC_get_flights n o d start t :
  tame (FlightManagementSystem.DBC_get_flights n o d start t).
Proof. intros w. split; [by exists []|done]. Qed.

Lemma tame_Flight_get i : tame (FlightManagementSystem.Flight_get i).
Proof. intros w. split; [by exists []|done]. Qed.

Lemma tame_DBC_book_flight i seat pn pid status now :
  tame (FlightManagementSystem.DBC_book_flight i seat pn pid status now).
Proof.
  intros w. unfold FlightManagementSystem.DBC_book_flight.
  split.
  - exists [BookFlight i seat pn pid status now]. simpl.
    by destruct (book_flight _ i seat pn pid status now) as [msg db].
  - by destruct (book_flight _ i seat pn pid status now) as [msg db].
Qed.

Section console.
Context (strip : string → string) (strptime : string → option datetime)
        (int : string → option Z) (digits : string → string)
        (utcnow : FlightManagementSystem.Console → datetime).

Local Ltac tame_step :=
  first
    [ apply tame_ret | apply tame_raise | apply tame_input
    | apply tame_DBC_add_flight | apply tame_DBC_get_flights
    | apply tame_Flight_get | apply tame_DBC_book_flight
    | apply tame_bind; [|intro]
    | match goal with
      | |- tame (match ?x with _ => _ end) => destruct x
      | |- tame (if ?x then _ else _) => destruct x
      end ].

Lemma tame_add_flight : tame (FlightManagementSystem.add_flight strptime int).
Proof. unfold FlightManagementSystem.add_flight. repeat tame_step. Qed.

Lemma tame_display_flight i : tame (FlightManagementSystem.display_flight i).
Proof. unfold FlightManagementSystem.display_flight. repeat tame_step. Qed.

Lemma tame_optional_time s :
  tame (FlightManagementSystem.optional_time strptime s).
Proof. unfold FlightManagementSystem.optional_time. repeat tame_step. Qed.

Lemma tame_find_flights :
  tame (FlightManagementSystem.find_flights strip strptime).
Proof.
  unfold FlightManagementSystem.find_flights.
  repeat first [apply tame_optional_time | tame_step].
Qed.

Lemma tame_select_flight flights :
  tame (FlightManagementSystem.select_flight int digits flights).
Proof. unfold FlightManagementSystem.select_flight. repeat tame_step. Qed.

Lemma tame_book_flight status :
  tame (FlightManagementSystem.book_flight strip strptime int digits utcnow
          status).
Proof.
  unfold FlightManagementSystem.book_flight.
  repeat first
    [ apply tame_find_flights | apply tame_select_flight
    | apply tame_display_flight
    | match goal with
      | |- tame (λ w, FlightManagementSystem.DBC_book_flight _ _ _ _ _ _ w) =>
          intros w; apply tame_DBC_book_flight
      end
    | tame_step ].
Qed.

Lemma tame_menu choice :
  tame (FlightManagementSystem.menu strip strptime int digits utcnow choice).
Proof.
  unfold FlightManagementSystem.menu.
  repeat first
    [ apply tame_add_flight | apply tame_find_flights
    | apply tame_select_flight | apply tame_display_flight
    | apply tame_book_flight | tame_step ].
Qed.

End console.

Section console_properties.
Context (strip : string → string) (strptime : string → option datetime)
        (int : string → option Z) (digits : string → string)
        (utcnow : FlightManagementSystem.Console → datetime).

Lemma console_add_flight_lines n dep_s o d arr_s size_s rest db :
  FlightManagementSystem.add_flight strptime int
    (FlightManagementSystem.mkConsole
       (n :: dep_s :: o :: d :: arr_s :: size_s :: rest) db)
  = match strptime dep_s, strptime arr_s, int size_s with
    | Some dep, Some arr, Some size =>
        if bool_decide (dep < arr) then
          if bool_decide (int64 size) then
            if bool_decide (to_millis dep < to_millis arr)
            then (inr (Some (fresh_id db)),
                  FlightManagementSystem.mkConsole rest
                    (db ++ [new_flight db n (to_millis dep) o d
                                       (to_millis arr) size]))
            else (inl (FlightManagementSystem.Raised ValidationError),
                  FlightManagementSystem.mkConsole rest
                    (db ++ [new_flight db n (to_millis dep) o d
                                       (to_millis arr) size]))
          else (inl (FlightManagementSystem.Raised OverflowError),
                FlightManagementSystem.mkConsole rest db)
        else (inr None, FlightManagementSystem.mkConsole rest db)
    | _, _, _ => (inr None, FlightManagementSystem.mkConsole rest db)
    end.
Proof.
  unfold FlightManagementSystem.add_flight, FlightManagementSystem.bind,
    FlightManagementSystem.input. simpl.
  destruct (strptime dep_s) as [dep|]; [|done].
  destruct (strptime arr_s) as [arr|]; [|done].
  destruct (decide (dep < arr)) as [Hlt|Hge].
  - rewrite bool_decide_eq_false_2 by lia.
    rewrite (bool_decide_eq_true_2 (dep < arr)) by done.
    destruct (int size_s) as [size|]; [|done].
    unfold FlightManagementSystem.DBC_add_flight. simpl.
    rewrite add_flight_late by done.
    by repeat case_bool_decide.
  - rewrite bool_decide_eq_true_2 by lia.
    rewrite (bool_decide_eq_false_2 (dep < arr)) by done.
    by destruct (int size_s).
Qed.



Lemma index_in_range {A} (l : list A) k :
  0 ≤ k < Z.of_nat (length l) →
  ∃ x, FlightManagementSystem.index l k = inr x ∧ x ∈ l.
Proof.
  intros Hk. unfold FlightManagementSystem.index.
  rewrite (bool_decide_eq_false_2 (k < 0)) by lia.
  rewrite (bool_decide_eq_false_2 (k < 0)) by lia.
  destruct (l !! Z.to_nat k) as [x|] eqn:Hx.
  - exists x. split; [done|]. by eapply list_elem_of_lookup_2.
  - apply lookup_ge_None in Hx. lia.
Qed.

Lemma select_flight_result fl w r w' :
  FlightManagementSystem.select_flight int digits (Some fl) w = (r, w') →
  FlightManagementSystem.stored w' = FlightManagementSystem.stored w
  ∧ r ≠ inl FlightManagementSystem.IndexError
  ∧ r ≠ inl FlightManagementSystem.AttributeError
  ∧ (∀ i, r = inr (Some i) → ∃ f, f ∈ fl ∧ _id f = Some i).
Proof.
  unfold FlightManagementSystem.select_flight, FlightManagementSystem.bind,
    FlightManagementSystem.input.
  destruct w as [[|line rest] db]; simpl.
  { intros [= <- <-]. by repeat split. }
  destruct (int (digits line)) as [number|]; simpl.
  2: { intros [= <- <-]. by repeat split. }
  case_bool_decide as H0; simpl.
  { intros [= <- <-]. by repeat split. }
  case_bool_decide as Hrange; simpl.
  2: { intros [= <- <-]. by repeat split. }
  destruct (index_in_range fl (number - 1)) as (f & Hidx & Hf); [lia|].
  rewrite Hidx. intros [= <- <-]. repeat split; try done.
  intros i [= Hi]. by exists f.
Qed.

Lemma find_flights_result w r w' :
  FlightManagementSystem.find_flights strip strptime w = (r, w') →
  FlightManagementSystem.stored w' = FlightManagementSystem.stored w
  ∧ r ≠ inl FlightManagementSystem.AttributeError
  ∧ (∀ fl, r = inr (Some fl) →
           ∀ f, f ∈ fl → f ∈ FlightManagementSystem.stored w).
Proof.
  unfold FlightManagementSystem.find_flights,
    FlightManagementSystem.optional_time, FlightManagementSystem.bind,
    FlightManagementSystem.input, FlightManagementSystem.DBC_get_flights,
    FlightManagementSystem.ret, FlightManagementSystem.raise.
  destruct w as [stdin db]. simpl. intros Hrun.
  repeat (case_match; simplify_eq/=); repeat split; try done.
  all: intros fl [= <-] f Hf; unfold get_flights, find in Hf;
    by apply list_elem_of_filter in Hf as [_ Hf].
Qed.

Lemma display_flight_found i w :
  is_Some (get i (FlightManagementSystem.stored w)) →
  FlightManagementSystem.display_flight (Some i) w = (inr tt, w).
Proof.
  intros [f Hf].
  unfold FlightManagementSystem.display_flight, FlightManagementSystem.bind,
    FlightManagementSystem.Flight_get.
  by rewrite Hf.
Qed.

(** X18: [select_flight] never reads outside the list it is given and
    never touches the collection; an identity it returns is that of one of
    the listed flights. *)
Theorem select_flight_in_range flights w :
  (FlightManagementSystem.select_flight int digits flights w).1
  ≠ inl FlightManagementSystem.IndexError
  ∧ FlightManagementSystem.stored
      (FlightManagementSystem.select_flight int digits flights w).2
    = FlightManagementSystem.stored w
  ∧ (∀ i, (FlightManagementSystem.select_flight int digits flights w).1
          = inr (Some i) →
          ∃ fl f, flights = Some fl ∧ f ∈ fl ∧ _id f = Some i).
Proof.
  destruct flights as [fl|]; [|by repeat split].
  destruct (FlightManagementSystem.select_flight int digits (Some fl) w)
    as [r w'] eqn:Hrun.
  apply select_flight_result in Hrun as (Hdb & Hidx & _ & Hsel).
  simpl. repeat split; try done.
  intros i Hi. destruct (Hsel i Hi) as (f & Hf & Hid). by exists fl, f.
Qed.

Lemma book_loop_not_no_flight db flight seen todo seat pn pid status now :
  (book_loop db flight seen todo seat pn pid status now).1 ≠ MsgNoFlight.
Proof.
  revert seen. induction todo as [|b todo IH]; intros seen; simpl; [done|].
  case_bool_decide; [|apply IH].
  unfold book_seat. repeat case_match; simpl; done.
Qed.

Lemma book_flight_found db fid flight seat pn pid status now :
  get fid db = Some flight →
  (book_flight db fid seat pn pid status now).1 ≠ MsgNoFlight.
Proof.
  intros Hget. unfold book_flight. rewrite Hget.
  apply book_loop_not_no_flight.
Qed.

Lemma book_flight_keeps_get db fid j seat pn pid status now :
  is_Some (get j db) →
  is_Some (get j (book_flight db fid seat pn pid status now).2).
Proof.
  intros Hj.
  destruct (book_flight_cases db fid seat pn pid status now)
    as [(m & _ & ->)
       |(flight & pre & booking & post & Hget & _ & _ & _ & _ & _ & ->)];
    [done|].
  simpl. destruct (decide (j = fid)) as [->|Hne].
  - erewrite get_replace_one; [done|done|]. by apply get_Some_id in Hget.
  - rewrite get_replace_one_ne; [done| |done]. by apply get_Some_id in Hget.
Qed.

Lemma console_book_flight_result status w r w' :
  NoDup (_id <$> FlightManagementSystem.stored w) →
  FlightManagementSystem.book_flight strip strptime int digits utcnow
    status w = (r, w') →
  r ≠ inl FlightManagementSystem.AttributeError
  ∧ r ≠ inr (Some MsgNoFlight).
Proof.
  intros Hnd Hrun.
  unfold FlightManagementSystem.book_flight, FlightManagementSystem.bind
    in Hrun.
  destruct (FlightManagementSystem.find_flights strip strptime w)
    as [r1 w1] eqn:H1.
  apply find_flights_result in H1 as (Hdb1 & Hne1 & Hfl).
  destruct r1 as [e|flights].
  { simpl in Hrun. simplify_eq.
    split; [intros [= ->]; by apply Hne1|done]. }
  destruct flights as [fl|].
  2: { unfold FlightManagementSystem.select_flight,
         FlightManagementSystem.ret in Hrun.
       simpl in Hrun. simplify_eq. by split. }
  destruct (FlightManagementSystem.select_flight int digits (Some fl) w1)
    as [r2 w2] eqn:H2.
  apply select_flight_result in H2 as (Hdb2 & _ & Hne2 & Hsel).
  destruct r2 as [e|[i|]].
  { simpl in Hrun. simplify_eq.
    split; [intros [= ->]; by apply Hne2|done]. }
  2: { unfold FlightManagementSystem.ret in Hrun.
       simpl in Hrun. simplify_eq. by split. }
  destruct (Hsel i eq_refl) as (f & Hf & Hid).
  assert (get i (FlightManagementSystem.stored w2) = Some f) as Hget.
  { rewrite Hdb2, Hdb1. apply get_unique_ids; [done|by eapply Hfl|done]. }
  rewrite display_flight_found in Hrun by (by rewrite Hget).
  destruct w2 as [lines db]. simpl in Hget.
  unfold FlightManagementSystem.input, FlightManagementSystem.ret in Hrun.
  simpl in Hrun.
  destruct lines as [|l1 [|l2 [|l3 rest]]]; simpl in Hrun;
    try (simplify_eq; by split).
  unfold FlightManagementSystem.DBC_book_flight in Hrun. simpl in Hrun.
  destruct (book_flight db i (strip l1) (strip l2) (strip l3) status _)
    as [msg db'] eqn:Hbook.
  simpl in Hrun.
  destruct (book_flight_keeps_get db i i (strip l1) (strip l2) (strip l3)
              status
              (utcnow (FlightManagementSystem.mkConsole rest db)))
    as [f' Hf']; [by rewrite Hget|].
  rewrite Hbook in Hf'. simpl in Hf'.
  unfold FlightManagementSystem.bind, FlightManagementSystem.Flight_get,
    FlightManagementSystem.ret in Hrun.
  simpl in Hrun. rewrite Hf' in Hrun.
  simplify_eq. split; [done|]. intros [= ->].
  eapply (book_flight_found db i f); [done|]. by rewrite Hbook.
Qed.

(** X19: on a collection whose flights have distinct identities, the
    console's [book_flight] always hands [FlightDBC.book_flight] the
    identity of a stored flight: the call never ends with the no-flight
    message, and showing the flight before and after never fails on a
    flight that is not there. *)
Theorem console_book_flight_finds_flight status w :
  NoDup (_id <$> FlightManagementSystem.stored w) →
  (FlightManagementSystem.book_flight strip strptime int digits utcnow
     status w).1 ≠ inl FlightManagementSystem.AttributeError
  ∧ (FlightManagementSystem.book_flight strip strptime int digits utcnow
       status w).1 ≠ inr (Some MsgNoFlight).
Proof.
  intros Hnd.
  destruct (FlightManagementSystem.book_flight strip strptime int digits
              utcnow status w) as [r w'] eqn:Hrun.
  by eapply console_book_flight_result.
Qed.

(** X20: the console changes the collection only through [FlightDBC]:
    whatever is typed, the collection after [run] is the result of some
    sequence of [add_flight] and [book_flight] calls on the collection
    before it, so all that such sequences keep, a console session keeps
    too. *)
Theorem console_run_is_repository_run fuel w r w' :
  FlightManagementSystem.run strip strptime int digits utcnow fuel w
  = Some (r, w') →
  ∃ ops, FlightManagementSystem.stored w'
         = run ops (FlightManagementSystem.stored w).
Proof.
  revert w. induction fuel as [|fuel IH]; intros w; simpl; [done|].
  destruct (tame_input w) as [[ops1 Hdb1] _].
  destruct (FlightManagementSystem.input w) as [[e|line] w1]; simpl in *.
  { intros [= <- <-]. by exists ops1. }
  destruct (int (digits line)) as [choice|].
  2: { intros [= <- <-]. by exists ops1. }
  destruct (tame_menu strip strptime int digits utcnow choice w1)
    as [[ops2 Hdb2] _].
  destruct (FlightManagementSystem.menu _ _ _ _ _ choice w1)
    as [[e|[|]] w2]; simpl in *.
  - intros [= <- <-]. exists (ops1 ++ ops2). by rewrite run_app, <- Hdb1.
  - intros [= <- <-]. exists (ops1 ++ ops2). by rewrite run_app, <- Hdb1.
  - intros Hrun. destruct (IH w2 Hrun) as [ops3 Hdb3].
    exists (ops1 ++ ops2 ++ ops3).
    by rewrite !run_app, <- Hdb1, <- Hdb2.
Qed.

Lemma console_run_more_fuel fuel w res :
  FlightManagementSystem.run strip strptime int digits utcnow fuel w
  = Some res →
  FlightManagementSystem.run strip strptime int digits utcnow (S fuel) w
  = Some res.
Proof.
  revert w. induction fuel as [|fuel IH]; intros w; [done|].
  intros Hrun. simpl in Hrun.
  change (FlightManagementSystem.run strip strptime int digits utcnow
            (S (S fuel)) w)
    with (match FlightManagementSystem.input w with
          | (inl e, w) => Some (inl e, w)
          | (inr choice, w) =>
              match int (digits choice) with
              | None => Some (inl FlightManagementSystem.ValueError, w)
              | Some choice =>
                  match FlightManagementSystem.menu strip strptime int digits
                          utcnow choice w with
                  | (inl e, w) => Some (inl e, w)
                  | (inr true, w) => Some (inr tt, w)
                  | (inr false, w) =>
                      FlightManagementSystem.run strip strptime int digits
                        utcnow (S fuel) w
                  end
              end
          end).
  destruct (FlightManagementSystem.input w) as [[e|line] w1]; [done|].
  destruct (int (digits line)) as [choice|]; [|done].
  destruct (FlightManagementSystem.menu _ _ _ _ _ choice w1)
    as [[e|[|]] w2]; [done|done|].
  by apply IH.
Qed.

Lemma console_run_enough_fuel fuel w :
  (length (FlightManagementSystem.stdin w) < fuel)%nat →
  is_Some (FlightManagementSystem.run strip strptime int digits utcnow fuel w).
Proof.
  revert w. induction fuel as [|fuel IH]; intros w Hfuel; [lia|]. simpl.
  destruct w as [[|line rest] db]; simpl; [done|].
  destruct (int (digits line)) as [choice|]; [|done].
  destruct (tame_menu strip strptime int digits utcnow choice
              (FlightManagementSystem.mkConsole rest db)) as [_ Hin].
  destruct (FlightManagementSystem.menu _ _ _ _ _ choice _)
    as [[e|[|]] w2]; [done|done|].
  apply IH. simpl in *. lia.
Qed.

(** X21: the menu loop of [run] ends on every finite input: each round
    takes at least one line, so once the rounds allowed exceed the lines
    typed the loop has returned (by the exit choice) or stopped on an
    exception, with one and the same outcome however many more rounds are
    allowed. *)
Theorem console_run_ends w :
  ∃ res, ∀ fuel,
    (length (FlightManagementSystem.stdin w) < fuel)%nat →
    FlightManagementSystem.run strip strptime int digits utcnow fuel w
    = Some res.
Proof.
  destruct (console_run_enough_fuel
              (S (length (FlightManagementSystem.stdin w))) w)
    as [res Hres]; [lia|].
  exists res. intros fuel Hfuel.
  assert (∃ k, fuel = (k + S (length (FlightManagementSystem.stdin w)))%nat)
    as [k ->] by (exists (fuel - S (length (FlightManagementSystem.stdin w)))%nat; lia).
  induction k as [|k IH]; [done|].
  apply console_run_more_fuel. apply IH. lia.
Qed.

End console_properties.

(** ** Worked runs of the console *)

Example console_session :
  FlightManagementSystem.run (λ s, s) sample_time sample_number (λ s, s)
    sample_clock 3 sample_session
  = Some (inr (), FlightManagementSystem.mkConsole [] [flight_two_seats]).
Proof. reflexivity. Qed.

Example console_booking :
  FlightManagementSystem.book_flight (λ s, s) sample_number sample_number
    (λ s, s) sample_clock BOOKED sample_booking
  = (inr (Some (MsgBookingDone "1" BOOKED)),
     FlightManagementSystem.mkConsole [] [flight_alice]).
Proof. reflexivity. Qed.



(** A seat count beyond the store's integers, typed at the console. *)
Example console_add_flight_overflow :
  FlightManagementSystem.add_flight sample_time
    (λ _, Some (- 2 ^ 63 - 1))
    (FlightManagementSystem.mkConsole
       ["AB123"; "10"; "PEK"; "SHA"; "20"; "-9223372036854775809"] [])
  = (inl (FlightManagementSystem.Raised OverflowError),
     FlightManagementSystem.mkConsole [] []).
Proof.
  rewrite console_add_flight_lines. reflexivity.
Qed.

Lemma select_flight_in_range_witness :
  ∃ fl f, Some [flight_two_seats] = Some fl ∧ f ∈ fl ∧ _id f = Some 1%nat.
Proof.
  apply (proj2 (proj2 (select_flight_in_range sample_number (λ s, s)
                         (Some [flight_two_seats])
                         (FlightManagementSystem.mkConsole
                            ["1"] [flight_two_seats])))).
  reflexivity.
Defined.

Lemma console_book_flight_finds_flight_witness :
  (FlightManagementSystem.book_flight (λ s, s) sample_number sample_number
     (λ s, s) sample_clock BOOKED sample_booking).1
  ≠ inl FlightManagementSystem.AttributeError
  ∧ (FlightManagementSystem.book_flight (λ s, s) sample_number sample_number
       (λ s, s) sample_clock BOOKED sample_booking).1
    ≠ inr (Some MsgNoFlight).
Proof.
  apply (console_book_flight_finds_flight (λ s, s) sample_number
           sample_number (λ s, s) sample_clock BOOKED sample_booking).
  apply (bool_decide_unpack _). vm_compute. exact I.
Defined.

Lemma console_run_is_repository_run_witness :
  ∃ ops, [flight_two_seats] = run ops [].
Proof.
  apply (console_run_is_repository_run (λ s, s) sample_time sample_number
           (λ s, s) sample_clock 3 sample_session (inr ())
           (FlightManagementSystem.mkConsole [] [flight_two_seats])).
  reflexivity.
Defined.

Lemma console_run_ends_witness :
  ∃ res,
    FlightManagementSystem.run (λ s, s) sample_number sample_number (λ s, s)
      sample_clock 9 sample_session
    = Some res.
Proof.
  destruct (console_run_ends (λ s, s) sample_number sample_number (λ s, s)
              sample_clock sample_session) as [res Hres].
  exists res. apply Hres. simpl. lia.
Defined.
